(** * Shallow embedding of the GitHub search-and-replace pipeline

    Sources: [src/search-replace-config.ts], [src/github-client.ts],
    [src/github-search-replace.ts].

    JavaScript strings are modelled as [string] (ASCII), numbers as [Z],
    [T | undefined] as [option T], thrown exceptions as [Throw] of a
    [JsError] (the [name] and [message] of the thrown object). *)

From Stdlib Require Import String Ascii List ZArith Bool Lia.
Import ListNotations.
Open Scope string_scope.
Open Scope Z_scope.

(** ** JavaScript string helpers *)

(** [haystack.includes(needle)]. *)
Fixpoint includes (haystack needle : string) : bool :=
  if String.prefix needle haystack then true
  else match haystack with
       | EmptyString => false
       | String _ rest => includes rest needle
       end.

(** [parts.join(sep)]. *)
Fixpoint join (sep : string) (parts : list string) : string :=
  match parts with
  | [] => ""
  | [x] => x
  | x :: rest => x ++ sep ++ join sep rest
  end.

(** [s.startsWith(p)]. *)
Definition startsWith (s p : string) : bool := String.prefix p s.

(** Decimal rendering of a number in a template literal. *)
Fixpoint nat_digits (fuel n : nat) (acc : string) : string :=
  match fuel with
  | O => acc
  | S f =>
      let d := Nat.modulo n 10 in
      let acc' := String (ascii_of_nat (48 + d)) acc in
      if Nat.ltb n 10 then acc' else nat_digits f (Nat.div n 10) acc'
  end.

Definition z_to_string (z : Z) : string :=
  if z <? 0 then "-" ++ nat_digits (S (Z.to_nat (- z))) (Z.to_nat (- z)) ""
  else nat_digits (S (Z.to_nat z)) (Z.to_nat z) "".

(** [s.split("/")], keeping the first two components as in
    [const [owner, repo] = s.split("/")]; a missing component is
    [undefined], which the template literals print as "undefined". *)
Fixpoint split_at_slash (s : string) : string * option string :=
  match s with
  | EmptyString => ("", None)
  | String c rest =>
      if Ascii.eqb c "/"%char then
        let '(seg, _) := split_at_slash rest in ("", Some seg)
      else let '(seg, more) := split_at_slash rest in (String c seg, more)
  end.

Definition owner_repo (full : string) : string * string :=
  let '(owner, rest) := split_at_slash full in
  match rest with
  | None => (owner, "undefined")
  | Some r => (owner, r)
  end.

(** [s.slice(0, n)]. *)
Definition slice0 (n : nat) (s : string) : string := String.substring 0 n s.

(** [s.replace(/[:-]/g, "")]: the regular expression is the character class
    of [:] and [-], so the call deletes those characters. *)
Fixpoint strip_colon_dash (s : string) : string :=
  match s with
  | EmptyString => EmptyString
  | String c rest =>
      if Ascii.eqb c ":"%char || Ascii.eqb c "-"%char then strip_colon_dash rest
      else String c (strip_colon_dash rest)
  end.

(** [pattern.replace(/\*/g, ".*")]: the regular expression is the single
    literal character [*]. *)
Fixpoint star_to_dot_star (s : string) : string :=
  match s with
  | EmptyString => EmptyString
  | String c rest =>
      if Ascii.eqb c "*"%char then "." ++ "*" ++ star_to_dot_star rest
      else String c (star_to_dot_star rest)
  end.

(** GetSubstitution of ECMA-262 for a match without capture groups:
    [$$], [$&], [$`] and [$'] are expanded, any other [$] is kept. *)
Fixpoint get_substitution (matched before after : string) (repl : string)
  : string :=
  match repl with
  | EmptyString => EmptyString
  | String c rest =>
      if Ascii.eqb c "$"%char then
        match rest with
        | String d rest' =>
            if Ascii.eqb d "$"%char then "$" ++ get_substitution matched before after rest'
            else if Ascii.eqb d "&"%char then matched ++ get_substitution matched before after rest'
            else if Ascii.eqb d "`"%char then before ++ get_substitution matched before after rest'
            else if Ascii.eqb d "'"%char then after ++ get_substitution matched before after rest'
            else String c (get_substitution matched before after rest)
        | EmptyString => String c EmptyString
        end
      else String c (get_substitution matched before after rest)
  end.

(** Position of the first occurrence of [needle] in [s], from position 0. *)
Fixpoint index_of (s needle : string) : option nat :=
  if String.prefix needle s then Some O
  else match s with
       | EmptyString => None
       | String _ rest =>
           match index_of rest needle with
           | Some i => Some (S i)
           | None => None
           end
       end.

(** [s.replace(pattern, repl)] with a string [pattern]: only the first
    occurrence is replaced, and [repl] goes through GetSubstitution. *)
Definition replace_first (s pattern repl : string) : string :=
  match index_of s pattern with
  | None => s
  | Some i =>
      let before := String.substring 0 i s in
      let after := String.substring (i + String.length pattern) (String.length s) s in
      before ++ get_substitution pattern before after repl ++ after
  end.

(** ** Thrown values and results *)

Record JsError := mkError { err_name : string; err_message : string }.

(** [new Error(msg)]. *)
Definition Error (msg : string) : JsError := mkError "Error" msg.

Inductive Res (A : Type) : Type :=
| Ok (a : A)
| Throw (e : JsError).
Arguments Ok {A} a.
Arguments Throw {A} e.

(** ** Configuration ([search-replace-config.ts]) *)

Record SearchReplaceConfig := mkConfig {
  githubToken : string;
  organizations : list string;
  searchString : string;
  replacementString : string;
  includeExtensions : option (list string);
  excludePatterns : option (list string);
  includeArchived : option bool;
  repositoryTypes : option (list string);
  branchPrefix : option string;
  prTitle : option string;
  prBody : option string;
  prLabels : option (list string);
  dryRun : option bool;
  maxReposPerOrg : option Z
}.

(** JavaScript truthiness of a string. *)
Definition str_truthy (s : string) : bool :=
  negb (String.eqb s "").

(** [validateConfig]: the pushes of [errors] in order. *)
Definition validateConfig (config : SearchReplaceConfig) : list string :=
  (if negb (str_truthy config.(githubToken)) then ["GitHub token is required"] else [])
  ++ (if Nat.eqb (List.length config.(organizations)) 0
      then ["At least one organization must be specified"] else [])
  ++ (if negb (str_truthy config.(searchString)) then ["Search string is required"] else [])
  ++ (if negb (str_truthy config.(replacementString))
      then ["Replacement string is required"] else [])
  ++ (if String.eqb config.(searchString) config.(replacementString)
      then ["Search and replacement strings cannot be the same"] else []).

(** ** Regular expressions

    The code builds [new RegExp(source, "g")] from the raw search string.
    A regular-expression engine is described by what the code uses of it:
    the list of successive matches [(index, length)] that the global
    [lastIndex] iteration of [String.prototype.match] / [replace] visits
    over an input, or the [SyntaxError] thrown by the constructor. *)
Definition RegexEngine := string -> string -> Res (list (nat * nat)).

Section Regex.
Variable regex : RegexEngine.

(** [(s.match(new RegExp(p, "g")) || []).length]. *)
Definition regex_match_count (p s : string) : Res Z :=
  match regex p s with
  | Ok ms => Ok (Z.of_nat (List.length ms))
  | Throw e => Throw e
  end.

(** [new RegExp(p).test(s)]: some match exists. *)
Definition regex_test (p s : string) : Res bool :=
  match regex p s with
  | Ok ms => Ok (negb (Nat.eqb (List.length ms) 0))
  | Throw e => Throw e
  end.

(** Assembly of [s.replace(re, repl)] from the visited matches. *)
Fixpoint assemble (s repl : string) (ms : list (nat * nat)) (cursor : nat)
  : string :=
  match ms with
  | [] => String.substring cursor (String.length s - cursor) s
  | (i, l) :: ms' =>
      String.substring cursor (i - cursor) s
      ++ get_substitution (String.substring i l s) (String.substring 0 i s)
           (String.substring (i + l) (String.length s - (i + l)) s) repl
      ++ assemble s repl ms' (i + l)
  end.

(** [s.replace(new RegExp(p, "g"), repl)]. *)
Definition regex_replace_all (p s repl : string) : Res string :=
  match regex p s with
  | Ok ms => Ok (assemble s repl ms 0)
  | Throw e => Throw e
  end.
End Regex.

(** A concrete engine for the fragment of ECMAScript patterns made of
    ordinary characters, [.] (any character but a line terminator), and
    the anchors [^] and [$] (no [m] flag: start and end of input).  The
    other syntax characters are outside the fragment; on them the engine
    answers with a [Throw] named "Unmodelled", which is not a JavaScript
    behaviour and is used by no statement below. *)
Inductive Atom := ALit (c : ascii) | AAny | ABol | AEol.

Definition outside_fragment (c : ascii) : bool :=
  existsb (Ascii.eqb c)
    ["\"%char; "*"%char; "+"%char; "?"%char; "("%char; ")"%char;
     "["%char; "]"%char; "{"%char; "}"%char; "|"%char].

Fixpoint compile_fragment (p : string) : option (list Atom) :=
  match p with
  | EmptyString => Some []
  | String c rest =>
      if outside_fragment c then None
      else match compile_fragment rest with
           | None => None
           | Some atoms =>
               Some ((if Ascii.eqb c "."%char then AAny
                      else if Ascii.eqb c "^"%char then ABol
                      else if Ascii.eqb c "$"%char then AEol
                      else ALit c) :: atoms)
           end
  end.

Definition line_terminator (c : ascii) : bool :=
  Ascii.eqb c (ascii_of_nat 10) || Ascii.eqb c (ascii_of_nat 13).

(** Length of the match of [atoms] at the front of [rest]; [at_start]
    tells whether the front is position 0 of the input. *)
Fixpoint match_atoms (atoms : list Atom) (at_start : bool) (rest : string)
  : option nat :=
  match atoms with
  | [] => Some O
  | ALit c :: atoms' =>
      match rest with
      | String x r =>
          if Ascii.eqb x c then option_map S (match_atoms atoms' false r) else None
      | EmptyString => None
      end
  | AAny :: atoms' =>
      match rest with
      | String x r =>
          if line_terminator x then None else option_map S (match_atoms atoms' false r)
      | EmptyString => None
      end
  | ABol :: atoms' => if at_start then match_atoms atoms' at_start rest else None
  | AEol :: atoms' =>
      match rest with
      | EmptyString => match_atoms atoms' at_start rest
      | String _ _ => None
      end
  end.

(** RegExpBuiltinExec from [lastIndex = j]: the first position [>= j]
    where the pattern matches. *)
Fixpoint exec_from (fuel : nat) (atoms : list Atom) (s : string) (j : nat)
  : option (nat * nat) :=
  match fuel with
  | O => None
  | S f =>
      if Nat.ltb (String.length s) j then None
      else match match_atoms atoms (Nat.eqb j 0)
                   (String.substring j (String.length s - j) s) with
           | Some l => Some (j, l)
           | None => exec_from f atoms s (S j)
           end
  end.

(** The global iteration: after an empty match [lastIndex] advances by 1. *)
Fixpoint exec_global (fuel : nat) (atoms : list Atom) (s : string)
  (lastIndex : nat) : list (nat * nat) :=
  match fuel with
  | O => []
  | S f =>
      match exec_from (S (String.length s)) atoms s lastIndex with
      | None => []
      | Some (j, l) =>
          (j, l) :: exec_global f atoms s (if Nat.eqb l 0 then S j else j + l)
      end
  end.

Definition fragment_regex : RegexEngine :=
  fun p s =>
    match compile_fragment p with
    | Some atoms => Ok (exec_global (S (S (String.length s))) atoms s 0)
    | None => Throw (mkError "Unmodelled" p)
    end.

(** ** Data of [github-client.ts] and [github-search-replace.ts] *)

Record FileMatch := mkFileMatch {
  path : string;
  content : string;
  sha : string;
  matchCount : Z;
  repository : string;
  url : string
}.

Record PRCreationResult := mkPRResult {
  pr_repository : string;
  prNumber : Z;
  prUrl : string;
  filesChanged : Z;
  branchName : string
}.

Record RepositoryInfo := mkRepoInfo {
  ri_name : string;
  fullName : string;
  defaultBranch : string;
  isArchived : bool;
  visibility : string;
  cloneUrl : string
}.

Record ExecutionSummary := mkSummary {
  totalRepositories : Z;
  repositoriesWithMatches : Z;
  totalFilesChanged : Z;
  successfulPRs : Z;
  failedPRs : Z;
  prs : list PRCreationResult;
  errors : list string
}.

(** [Map<string, FileMatch[]>]: keys in insertion order. *)
Definition MatchMap := list (string * list FileMatch).

(** [if (!m.has(k)) m.set(k, []); m.get(k)!.push(v)]. *)
Fixpoint map_push (k : string) (v : FileMatch) (m : MatchMap) : MatchMap :=
  match m with
  | [] => [(k, [v])]
  | (k', vs) :: rest =>
      if String.eqb k k' then (k', app vs [v]) :: rest
      else (k', vs) :: map_push k v rest
  end.

(** ** The GitHub REST responses the code reads *)

Record SearchRepo := mkSearchRepo {
  full_name : string;
  sr_name : string;
  owner_login : string;
  default_branch : option string;
  archived : option bool;
  sr_visibility : option string;
  sr_private : option bool
}.

Record SearchItem := mkSearchItem {
  item_path : string;
  html_url : string;
  item_repository : SearchRepo
}.

Record SearchData := mkSearchData {
  total_count : Z;
  items : list SearchItem
}.

(** [repos.getContent]: an array for a directory, otherwise one object with
    its [type]; [content] is given decoded (the base64 transport of the API
    and the [Buffer] decoding of the code cancel out). *)
Inductive ContentData :=
| CDir (entries : list string)
| CObj (type : string) (body : string) (blob_sha : string).

Record RepoData := mkRepoData {
  rd_name : string;
  rd_full_name : string;
  rd_default_branch : option string;
  rd_archived : option bool;
  rd_visibility : option string;
  rd_private : option bool;
  rd_clone_url : option string
}.

Record PullData := mkPullData { number : Z; pr_html_url : string }.

(** Observable effects: every REST call with its arguments (the content
    call with its response), the pacing delays, and the [warn]/[error]
    log lines ([info] and [debug] lines are not recorded). *)
Inductive Level := LWarn | LError.

Inductive Event :=
| ESearchCode (q : string) (per_page page : Z)
| EGetContent (owner repo p ref : string) (resp : Res ContentData)
| EReposGet (owner repo : string)
| EGetRef (owner repo ref : string)
| ECreateRef (owner repo ref base_sha : string)
| ECreateOrUpdateFile (owner repo p message new_content file_sha branch : string)
| EPullsCreate (owner repo title head base body : string)
| EAddLabels (owner repo : string) (issue_number : Z) (labels : list string)
| EDelay (ms : Z)
| ELog (lvl : Level) (msg : string).

(** The REST surface used by the client, over an abstract server state [W]. *)
Record GitHubApi (W : Type) := mkApi {
  search_code : string -> Z -> Z -> W -> Res SearchData * W;
  repos_getContent : string -> string -> string -> string -> W -> Res ContentData * W;
  repos_get : string -> string -> W -> Res RepoData * W;
  git_getRef : string -> string -> string -> W -> Res string * W;
  git_createRef : string -> string -> string -> string -> W -> Res unit * W;
  repos_createOrUpdateFileContents :
    string -> string -> string -> string -> string -> string -> string -> W -> Res unit * W;
  pulls_create :
    string -> string -> string -> string -> string -> string -> W -> Res PullData * W;
  issues_addLabels : string -> string -> Z -> list string -> W -> Res unit * W;
  date_now_iso : W -> string
}.
Arguments search_code {W}. Arguments repos_getContent {W}. Arguments repos_get {W}.
Arguments git_getRef {W}. Arguments git_createRef {W}.
Arguments repos_createOrUpdateFileContents {W}. Arguments pulls_create {W}.
Arguments issues_addLabels {W}. Arguments date_now_iso {W}.

(** ** The effect monad: server state, trace of effects, and the heap cell
    holding the [summary] object of [executeSearchReplace]. *)
Record St (W : Type) := mkSt {
  st_world : W;
  st_trace : list Event;
  st_summary : ExecutionSummary
}.
Arguments mkSt {W}. Arguments st_world {W}. Arguments st_trace {W}.
Arguments st_summary {W}.

Definition M (W A : Type) := St W -> Res A * St W.

Definition ret {W A} (a : A) : M W A := fun s => (Ok a, s).

Definition bind {W A B} (m : M W A) (k : A -> M W B) : M W B :=
  fun s => match m s with
           | (Ok a, s') => k a s'
           | (Throw e, s') => (Throw e, s')
           end.

Notation "x <- m ;; k" := (bind m (fun x => k))
  (at level 61, m at next level, right associativity).
Notation "m ;;; k" := (bind m (fun _ => k))
  (at level 61, right associativity).

Definition throw {W A} (e : JsError) : M W A := fun s => (Throw e, s).

(** [try { m } catch (e) { h(e) }]: effects of [m] up to the throw stay. *)
Definition try_catch {W A} (m : M W A) (h : JsError -> M W A) : M W A :=
  fun s => match m s with
           | (Ok a, s') => (Ok a, s')
           | (Throw e, s') => h e s'
           end.

Definition emit {W} (ev : Event) : M W unit :=
  fun s => (Ok tt, mkSt s.(st_world) (app s.(st_trace) [ev]) s.(st_summary)).

Definition warn {W} (msg : string) : M W unit := emit (ELog LWarn msg).
Definition error {W} (msg : string) : M W unit := emit (ELog LError msg).

(** A REST call: the event, then the server's answer. *)
Definition call {W A} (ev : Event) (f : W -> Res A * W) : M W A :=
  fun s => let '(r, w') := f s.(st_world) in
           (r, mkSt w' (app s.(st_trace) [ev]) s.(st_summary)).

Definition now_iso {W} (api : GitHubApi W) : M W string :=
  fun s => (Ok (date_now_iso api s.(st_world)), s).

Definition get_summary {W} : M W ExecutionSummary :=
  fun s => (Ok s.(st_summary), s).

Definition modify_summary {W} (f : ExecutionSummary -> ExecutionSummary) : M W unit :=
  fun s => (Ok tt, mkSt s.(st_world) s.(st_trace) (f s.(st_summary))).

Definition lift_res {W A} (r : Res A) : M W A :=
  fun s => (r, s).


(** [value || fallback] on an optional string. *)
Definition or_default (v : option string) (fallback : string) : string :=
  match v with
  | Some x => if str_truthy x then x else fallback
  | None => fallback
  end.

Definition opt_truthy (b : option bool) : bool :=
  match b with Some true => true | _ => false end.

Definition opt_str_truthy (v : option string) : bool :=
  match v with Some x => str_truthy x | None => false end.

(** A template literal's rendering of an optional string. *)
Definition show_opt (v : option string) : string :=
  match v with Some x => x | None => "undefined" end.

Definition dquote : string := String (ascii_of_nat 34) EmptyString.

Definition perPage : Z := 100.

(** [Math.ceil(t / d)] for a positive [d]. *)
Definition ceil_div (t d : Z) : Z := (t + d - 1) / d.

(** ** [GitHubClient] *)
Section Client.
Variable W : Type.
Variable api : GitHubApi W.
Variable regex : RegexEngine.
Variable config : SearchReplaceConfig.

(** [shouldProcessRepository]; note the precedence of
    [repo.visibility || repo.private ? "private" : "public"]. *)
Definition shouldProcessRepository (repo : SearchRepo) : bool :=
  if negb (opt_truthy config.(includeArchived)) && opt_truthy repo.(archived)
  then false
  else match config.(repositoryTypes) with
       | Some types =>
           if Nat.ltb 0 (List.length types) then
             let vis :=
               if opt_str_truthy repo.(sr_visibility) || opt_truthy repo.(sr_private)
               then "private" else "public" in
             existsb (String.eqb vis) types
           else true
       | None => true
       end.

(** [excludePatterns.some(...)], evaluated left to right; building the
    regular expression may throw. *)
Fixpoint some_excludes (patterns : list string) (p : string) : M W bool :=
  match patterns with
  | [] => ret false
  | pattern :: rest =>
      hit <- (if includes pattern "*"
              then lift_res (regex_test regex (star_to_dot_star pattern) p)
              else ret (includes p pattern)) ;;
      if hit then ret true else some_excludes rest p
  end.

Definition shouldExcludePath (p : string) : M W bool :=
  match config.(excludePatterns) with
  | None => ret false
  | Some patterns => some_excludes patterns p
  end.

(** [repos.getContent], recorded with its response. *)
Definition getContent_call (owner repo p ref : string) : M W ContentData :=
  fun s => let '(r, w') := repos_getContent api owner repo p ref s.(st_world) in
           (r, mkSt w' (app s.(st_trace) [EGetContent owner repo p ref r]) s.(st_summary)).

Definition getFileContent (owner repo p ref : string) : M W (option (string * string)) :=
  try_catch
    (data <- getContent_call owner repo p ref ;;
     match data with
     | CDir _ => ret None
     | CObj type body blob_sha =>
         if negb (String.eqb type "file") then ret None else ret (Some (body, blob_sha))
     end)
    (fun err => throw (Error ("Failed to get file content: " ++ err.(err_message)))).

(** The body of [for (const item of data.items)] in
    [searchAcrossOrganizations]; [allMatches] is threaded through. *)
Definition process_item (item : SearchItem) (allMatches : MatchMap) : M W MatchMap :=
  let repoName := item.(item_repository).(full_name) in
  if negb (shouldProcessRepository item.(item_repository)) then ret allMatches
  else
    excluded <- shouldExcludePath item.(item_path) ;;
    if excluded then ret allMatches
    else
      try_catch
        (fileContent <- getFileContent item.(item_repository).(owner_login)
                          item.(item_repository).(sr_name) item.(item_path)
                          (or_default item.(item_repository).(default_branch) "main") ;;
         match fileContent with
         | Some (body, blob_sha) =>
             if includes body config.(searchString) then
               mc <- lift_res (regex_match_count regex config.(searchString) body) ;;
               ret (map_push repoName
                      (mkFileMatch item.(item_path) body blob_sha mc repoName item.(html_url))
                      allMatches)
             else ret allMatches
         | None => ret allMatches
         end)
        (fun fileError =>
           warn ("Could not fetch content for " ++ repoName ++ "/" ++ item.(item_path)
                 ++ ": " ++ fileError.(err_message)) ;;;
           ret allMatches).

Fixpoint process_items (its : list SearchItem) (allMatches : MatchMap) : M W MatchMap :=
  match its with
  | [] => ret allMatches
  | item :: rest =>
      m <- process_item item allMatches ;;
      process_items rest m
  end.

Definition searchQuery : string :=
  dquote ++ config.(searchString) ++ dquote ++ " "
  ++ join " " (map (fun org => "org:" ++ org) config.(organizations)).

(** [while (hasMoreResults && page <= 10) { ... }]: [page] starts at 1 and
    grows by one per iteration, so ten iterations of fuel reach
    [page = 11], where the guard is false anyway. *)
Fixpoint search_pages (fuel : nat) (page : Z) (hasMoreResults : bool)
  (allMatches : MatchMap) : M W MatchMap :=
  match fuel with
  | O => ret allMatches
  | S f =>
      if hasMoreResults && (page <=? 10) then
        data <- call (ESearchCode searchQuery perPage page)
                  (search_code api searchQuery perPage page) ;;
        if Nat.eqb (List.length data.(items)) 0 then ret allMatches
        else
          m <- process_items data.(items) allMatches ;;
          let more := Z.eqb (Z.of_nat (List.length data.(items))) perPage
                      && (page <? ceil_div data.(total_count) perPage) in
          (if more then emit (EDelay 1000) else ret tt) ;;;
          search_pages f (page + 1) more m
      else ret allMatches
  end.

Definition searchAcrossOrganizations : M W MatchMap :=
  try_catch (search_pages 10 1 true [])
    (fun err => error ("Search failed: " ++ err.(err_message)) ;;; throw err).

Definition getRepositoryInfo (repoFullName : string) : M W (option RepositoryInfo) :=
  let '(owner, repo) := owner_repo repoFullName in
  try_catch
    (data <- call (EReposGet owner repo) (repos_get api owner repo) ;;
     ret (Some (mkRepoInfo data.(rd_name) data.(rd_full_name)
                  (or_default data.(rd_default_branch) "main")
                  (opt_truthy data.(rd_archived))
                  (if opt_str_truthy data.(rd_visibility) then show_opt data.(rd_visibility)
                   else if opt_truthy data.(rd_private) then "private" else "public")
                  (or_default data.(rd_clone_url) ""))))
    (fun err => error ("Failed to get repository info for " ++ repoFullName ++ ": "
                       ++ err.(err_message)) ;;; ret None).

(** [this.config.prTitle!.replace("{searchString}", ...).replace(...)]; on
    [undefined] the method call throws a [TypeError]. *)
Definition fill_template (t : option string) : M W string :=
  match t with
  | None => throw (mkError "TypeError" "Cannot read properties of undefined (reading 'replace')")
  | Some x =>
      ret (replace_first (replace_first x "{searchString}" config.(searchString))
             "{replacementString}" config.(replacementString))
  end.

Fixpoint commit_files (owner repo branch : string) (matches : list FileMatch) : M W unit :=
  match matches with
  | [] => ret tt
  | match_ :: rest =>
      newContent <- lift_res (regex_replace_all regex config.(searchString)
                                match_.(content) config.(replacementString)) ;;
      let message := "Replace " ++ config.(searchString) ++ " with "
                     ++ config.(replacementString) in
      call (ECreateOrUpdateFile owner repo match_.(path) message newContent match_.(sha) branch)
        (repos_createOrUpdateFileContents api owner repo match_.(path) message newContent
           match_.(sha) branch) ;;;
      commit_files owner repo branch rest
  end.

Definition add_labels_step (owner repo repoFullName : string) (pr : PullData) : M W unit :=
  match config.(prLabels) with
  | Some labels =>
      if Nat.ltb 0 (List.length labels) then
        try_catch
          (call (EAddLabels owner repo pr.(number) labels)
             (issues_addLabels api owner repo pr.(number) labels))
          (fun err => warn ("Could not add labels to PR " ++ z_to_string pr.(number) ++ " in "
                            ++ repoFullName ++ ": " ++ err.(err_message)))
      else ret tt
  | None => ret tt
  end.

Definition createPullRequest (repoFullName : string) (matches : list FileMatch)
  : M W PRCreationResult :=
  iso <- now_iso api ;;
  let timestamp := strip_colon_dash (slice0 19 iso) in
  let branch := show_opt config.(branchPrefix) ++ "-" ++ timestamp in
  let '(owner, repo) := owner_repo repoFullName in
  try_catch
    (repoInfo <- getRepositoryInfo repoFullName ;;
     match repoInfo with
     | None => throw (Error ("Could not get repository information for " ++ repoFullName))
     | Some ri =>
         baseSha <- call (EGetRef owner repo ("heads/" ++ ri.(defaultBranch)))
                      (git_getRef api owner repo ("heads/" ++ ri.(defaultBranch))) ;;
         call (ECreateRef owner repo ("refs/heads/" ++ branch) baseSha)
           (git_createRef api owner repo ("refs/heads/" ++ branch) baseSha) ;;;
         commit_files owner repo branch matches ;;;
         title <- fill_template config.(prTitle) ;;
         body <- fill_template config.(prBody) ;;
         pr <- call (EPullsCreate owner repo title branch ri.(defaultBranch) body)
                 (pulls_create api owner repo title branch ri.(defaultBranch) body) ;;
         add_labels_step owner repo repoFullName pr ;;;
         ret (mkPRResult repoFullName pr.(number) pr.(pr_html_url)
                (Z.of_nat (List.length matches)) branch)
     end)
    (fun err => error ("Failed to create PR for " ++ repoFullName ++ ": " ++ err.(err_message))
                ;;; throw err).

End Client.

(** ** [executeSearchReplace] ([github-search-replace.ts]) *)

Definition summary0 : ExecutionSummary := mkSummary 0 0 0 0 0 [] [].

Definition set_repositoriesWithMatches (n : Z) (s : ExecutionSummary) : ExecutionSummary :=
  mkSummary s.(totalRepositories) n s.(totalFilesChanged) s.(successfulPRs)
    s.(failedPRs) s.(prs) s.(errors).

Definition add_filesChanged (n : Z) (s : ExecutionSummary) : ExecutionSummary :=
  mkSummary s.(totalRepositories) s.(repositoriesWithMatches) (s.(totalFilesChanged) + n)
    s.(successfulPRs) s.(failedPRs) s.(prs) s.(errors).

(** [summary.prs.push(prResult); summary.successfulPRs++]. *)
Definition record_success (r : PRCreationResult) (s : ExecutionSummary) : ExecutionSummary :=
  mkSummary s.(totalRepositories) s.(repositoriesWithMatches) s.(totalFilesChanged)
    (s.(successfulPRs) + 1) s.(failedPRs) (app s.(prs) [r]) s.(errors).

Definition incr_failedPRs (s : ExecutionSummary) : ExecutionSummary :=
  mkSummary s.(totalRepositories) s.(repositoriesWithMatches) s.(totalFilesChanged)
    s.(successfulPRs) (s.(failedPRs) + 1) s.(prs) s.(errors).

Definition push_error (msg : string) (s : ExecutionSummary) : ExecutionSummary :=
  mkSummary s.(totalRepositories) s.(repositoriesWithMatches) s.(totalFilesChanged)
    s.(successfulPRs) s.(failedPRs) s.(prs) (app s.(errors) [msg]).

Section Orchestrator.
Variable W : Type.
Variable api : GitHubApi W.
Variable regex : RegexEngine.
Variable config : SearchReplaceConfig.

(** One iteration of [for (const [repoFullName, matches] of searchResults)]. *)
Definition process_repository (repoFullName : string) (matches : list FileMatch) : M W unit :=
  try_catch
    (modify_summary (add_filesChanged (Z.of_nat (List.length matches))) ;;;
     if opt_truthy config.(dryRun) then ret tt
     else
       try_catch
         (prResult <- createPullRequest W api regex config repoFullName matches ;;
          modify_summary (record_success prResult))
         (fun prError =>
            let errorMsg := "Failed to create PR for " ++ repoFullName ++ ": "
                            ++ prError.(err_message) in
            modify_summary incr_failedPRs ;;;
            modify_summary (push_error errorMsg) ;;;
            error errorMsg))
    (fun repoError =>
       let errorMsg := "Error processing repository " ++ repoFullName ++ ": "
                       ++ repoError.(err_message) in
       modify_summary (push_error errorMsg) ;;;
       error errorMsg).

Fixpoint process_repositories (results : MatchMap) : M W unit :=
  match results with
  | [] => ret tt
  | (repoFullName, matches) :: rest =>
      process_repository repoFullName matches ;;;
      process_repositories rest
  end.

(** The body of the [try] around the search in [executeSearchReplace]. *)
Definition search_and_process : M W unit :=
  searchResults <- searchAcrossOrganizations W api regex config ;;
  modify_summary (set_repositoriesWithMatches (Z.of_nat (List.length searchResults))) ;;;
  process_repositories searchResults.

(** Its [catch (searchError)] block. *)
Definition record_search_error (searchError : JsError) : M W unit :=
  let errorMsg := "Error during search operation: " ++ searchError.(err_message) in
  modify_summary (push_error errorMsg) ;;;
  error errorMsg.

Definition executeSearchReplace : M W ExecutionSummary :=
  let configErrors := validateConfig config in
  if Nat.ltb 0 (List.length configErrors) then
    throw (Error ("Configuration errors: " ++ join ", " configErrors))
  else
    modify_summary (fun _ => summary0) ;;;
    try_catch search_and_process record_search_error ;;;
    get_summary.

End Orchestrator.

(** A run from a server state [w] with an empty trace. *)
Definition run {W A} (m : M W A) (w : W) : Res A * St W :=
  m (mkSt w [] summary0).

(** ** Defaults, environment and entry point *)

Definition nl : string := String (ascii_of_nat 10) EmptyString.

(** The fields [getDefaultConfig()] sets. *)
Definition default_includeExtensions : list string :=
  [".js"; ".ts"; ".jsx"; ".tsx"; ".json"; ".yml"; ".yaml"; ".md"; ".txt"; ".html";
   ".css"; ".py"; ".java"; ".go"; ".rs"; ".dockerfile"; ".sh"; ".env.example"].

Definition default_excludePatterns : list string :=
  [".git/"; "node_modules/"; "dist/"; "build/"; ".next/"; "coverage/"; "*.log"; "*.lock";
   "package-lock.json"; "yarn.lock"].

Definition default_repositoryTypes : list string := ["public"; "private"; "internal"].

Definition default_branchPrefix : string := "automated-string-replacement".

Definition default_prTitle : string := "Replace {searchString} with {replacementString}".

Definition default_prBody : string :=
  "This PR replaces all occurrences of `{searchString}` with `{replacementString}`." ++ nl
  ++ nl
  ++ "## Changes Made" ++ nl
  ++ "- Updated string references across the codebase" ++ nl
  ++ "- No functional changes expected" ++ nl
  ++ nl
  ++ "## Review Notes" ++ nl
  ++ "Please verify that the replacements are correct and don't break any functionality."
  ++ nl ++ nl
  ++ "_This PR was created automatically by a search and replace script._".

Definition default_prLabels : list string := ["automated"; "maintenance"].

(** [process.env]. *)
Definition Env := string -> option string.

(** [s.split(",")] (on a single separator character). *)
Fixpoint split_on (sep : ascii) (s : string) : list string :=
  match s with
  | EmptyString => [""]
  | String c rest =>
      if Ascii.eqb c sep then "" :: split_on sep rest
      else match split_on sep rest with
           | x :: xs => String c x :: xs
           | [] => [String c ""]
           end
  end.

(** The white space and line terminators [String.prototype.trim] removes,
    restricted to the 8-bit characters. *)
Definition js_space (c : ascii) : bool :=
  existsb (fun n => Nat.eqb (nat_of_ascii c) n) [9; 10; 11; 12; 13; 32; 160]%nat.

Fixpoint trim_start (s : string) : string :=
  match s with
  | EmptyString => EmptyString
  | String c rest => if js_space c then trim_start rest else s
  end.

Fixpoint trim_end (s : string) : string :=
  match s with
  | EmptyString => EmptyString
  | String c rest =>
      let r := trim_end rest in
      if js_space c && String.eqb r "" then "" else String c r
  end.

(** [s.trim()]. *)
Definition trim (s : string) : string := trim_end (trim_start s).

(** The configuration [main] builds: [{...getDefaultConfig(), githubToken,
    organizations, searchString, replacementString}], then the overrides
    from [GITHUB_ORGANIZATIONS], [SEARCH_STRING], [REPLACEMENT_STRING] (each
    when truthy) and [DRY_RUN] (when equal to "true"). *)
Definition main_config (env : Env) : SearchReplaceConfig :=
  mkConfig
    (or_default (env "GITHUB_TOKEN") "")
    (match env "GITHUB_ORGANIZATIONS" with
     | Some v => if str_truthy v then map trim (split_on ","%char v) else ["new-work"; "xing-com"]
     | None => ["new-work"; "xing-com"]
     end)
    (or_default (env "SEARCH_STRING") "project-metadata.xing.io")
    (or_default (env "REPLACEMENT_STRING") "project-metadata.nwse.io")
    (Some default_includeExtensions) (Some default_excludePatterns) (Some false)
    (Some default_repositoryTypes) (Some default_branchPrefix) (Some default_prTitle)
    (Some default_prBody) (Some default_prLabels)
    (match env "DRY_RUN" with
     | Some v => if String.eqb v "true" then Some true else Some false
     | None => Some false
     end)
    (Some 50).

(** The lines [printSummary] logs, with their level. *)
Inductive PLevel := PInfo | PWarn.

Fixpoint string_repeat (n : nat) (s : string) : string :=
  match n with
  | O => ""
  | S k => s ++ string_repeat k s
  end.

(** The bullet U+2022 as it reaches the console, in UTF-8. *)
Definition bullet : string :=
  String (ascii_of_nat 226) (String (ascii_of_nat 128) (String (ascii_of_nat 162) EmptyString)).

(** [summary.errors.forEach((err, i) => warn(`  ${i + 1}. ${err}`))]. *)
Fixpoint numbered_errors (i : nat) (errs : list string) : list (PLevel * string) :=
  match errs with
  | [] => []
  | e :: rest => (PWarn, "  " ++ z_to_string (Z.of_nat i) ++ ". " ++ e) :: numbered_errors (S i) rest
  end.

Definition pr_lines (pr : PRCreationResult) : list (PLevel * string) :=
  [(PInfo, "  " ++ bullet ++ " " ++ pr.(pr_repository) ++ ": PR #" ++ z_to_string pr.(prNumber)
           ++ " (" ++ z_to_string pr.(filesChanged) ++ " files)");
   (PInfo, "    " ++ pr.(prUrl))].

Definition printSummary (summary : ExecutionSummary) (config : SearchReplaceConfig)
  : list (PLevel * string) :=
  [(PInfo, nl ++ string_repeat 60 "=");
   (PInfo, "EXECUTION SUMMARY");
   (PInfo, string_repeat 60 "=");
   (PInfo, "Organizations processed: " ++ join ", " config.(organizations));
   (PInfo, "Total repositories scanned: " ++ z_to_string summary.(totalRepositories));
   (PInfo, "Repositories with matches: " ++ z_to_string summary.(repositoriesWithMatches));
   (PInfo, "Total files that would be/were changed: " ++ z_to_string summary.(totalFilesChanged))]
  ++ (if opt_truthy config.(dryRun)
      then [(PInfo, "[DRY RUN] PRs that would be created: "
                    ++ z_to_string summary.(repositoriesWithMatches))]
      else [(PInfo, "Successful PRs created: " ++ z_to_string summary.(successfulPRs));
            (PInfo, "Failed PR attempts: " ++ z_to_string summary.(failedPRs))])
  ++ (if Nat.ltb 0 (List.length summary.(errors))
      then (PWarn, nl ++ "Errors encountered: " ++ z_to_string (Z.of_nat (List.length summary.(errors))))
           :: numbered_errors 1 summary.(errors)
      else [])
  ++ (if Nat.ltb 0 (List.length summary.(prs))
      then (PInfo, nl ++ "Created Pull Requests:") :: flat_map pr_lines summary.(prs)
      else [])
  ++ [(PInfo, string_repeat 60 "=")].

(** The logging of a list of lines: [warn] lines are recorded. *)
Fixpoint log_lines {W} (ls : list (PLevel * string)) : M W unit :=
  match ls with
  | [] => ret tt
  | (PWarn, msg) :: rest => warn msg ;;; log_lines rest
  | (PInfo, _) :: rest => log_lines rest
  end.

Definition missing_token_message : string :=
  "Missing GITHUB_TOKEN environment variable. Please set it to your GitHub Personal Access Token.".

(** [main()], returning the code given to [process.exit] (which ends the
    process at once).  The [console.error(err.stack)] of its [catch] is not
    recorded: the stack is not part of [JsError]. *)
Definition main (W : Type) (api : GitHubApi W) (regex : RegexEngine) (env : Env) : M W Z :=
  let config := main_config env in
  try_catch
    (if negb (str_truthy config.(githubToken)) then
       error missing_token_message ;;; ret 1
     else
       summary <- executeSearchReplace W api regex config ;;
       log_lines (printSummary summary config) ;;;
       let hasErrors := Nat.ltb 0 (List.length summary.(errors)) || (0 <? summary.(failedPRs)) in
       ret (if hasErrors then 1 else 0))
    (fun err => error ("Fatal error: " ++ err.(err_message)) ;;; ret 1).

(** ** A regular-expression engine for the exclude globs

    [shouldExcludePath] turns [*] into [.*]; this engine extends the
    fragment above with the greedy quantifier [*] after an ordinary
    character or [.], with ECMAScript's backtracking order (most
    repetitions first). *)
Inductive GAtom := GOne (a : Atom) | GStar (a : Atom).

Definition atom_of (c : ascii) : Atom :=
  if Ascii.eqb c "."%char then AAny
  else if Ascii.eqb c "^"%char then ABol
  else if Ascii.eqb c "$"%char then AEol
  else ALit c.

Definition quantifiable (a : Atom) : bool :=
  match a with ALit _ | AAny => true | _ => false end.

Fixpoint compile_glob (p : string) : option (list GAtom) :=
  match p with
  | EmptyString => Some []
  | String c rest =>
      if outside_fragment c then None
      else
        let a := atom_of c in
        match rest with
        | String d rest' =>
            if Ascii.eqb d "*"%char then
              if quantifiable a then option_map (cons (GStar a)) (compile_glob rest') else None
            else option_map (cons (GOne a)) (compile_glob rest)
        | EmptyString => Some [GOne a]
        end
  end.

(** One character matched by an ordinary atom. *)
Definition atom_char (a : Atom) (x : ascii) : bool :=
  match a with
  | ALit c => Ascii.eqb x c
  | AAny => negb (line_terminator x)
  | _ => false
  end.

Fixpoint run_length (a : Atom) (s : string) : nat :=
  match s with
  | String x r => if atom_char a x then S (run_length a r) else O
  | EmptyString => O
  end.

(** The first of [f i], [f (i-1)], ..., [f 0] that succeeds. *)
Fixpoint first_count (i : nat) (f : nat -> option nat) : option nat :=
  match f i with
  | Some l => Some l
  | None => match i with O => None | S j => first_count j f end
  end.

Fixpoint gmatch (atoms : list GAtom) (at_start : bool) (rest : string) : option nat :=
  match atoms with
  | [] => Some O
  | GOne ABol :: atoms' => if at_start then gmatch atoms' at_start rest else None
  | GOne AEol :: atoms' =>
      match rest with
      | EmptyString => gmatch atoms' at_start rest
      | String _ _ => None
      end
  | GOne a :: atoms' =>
      match rest with
      | String x r => if atom_char a x then option_map S (gmatch atoms' false r) else None
      | EmptyString => None
      end
  | GStar a :: atoms' =>
      first_count (run_length a rest)
        (fun i => option_map (Nat.add i)
                    (gmatch atoms' (at_start && Nat.eqb i 0)
                       (String.substring i (String.length rest - i) rest)))
  end.

Fixpoint gexec_from (fuel : nat) (atoms : list GAtom) (s : string) (j : nat)
  : option (nat * nat) :=
  match fuel with
  | O => None
  | S f =>
      if Nat.ltb (String.length s) j then None
      else match gmatch atoms (Nat.eqb j 0) (String.substring j (String.length s - j) s) with
           | Some l => Some (j, l)
           | None => gexec_from f atoms s (S j)
           end
  end.

Fixpoint gexec_global (fuel : nat) (atoms : list GAtom) (s : string) (lastIndex : nat)
  : list (nat * nat) :=
  match fuel with
  | O => []
  | S f =>
      match gexec_from (S (String.length s)) atoms s lastIndex with
      | None => []
      | Some (j, l) =>
          (j, l) :: gexec_global f atoms s (if Nat.eqb l 0 then S j else j + l)
      end
  end.

Definition glob_regex : RegexEngine :=
  fun p s =>
    match compile_glob p with
    | Some atoms => Ok (gexec_global (S (S (String.length s))) atoms s 0)
    | None => Throw (mkError "Unmodelled" p)
    end.

(** ** A concrete server for the scenarios below

    A static server: fixed search pages and file bodies; a file update
    succeeds only when the [sha] sent is the file's current one, as the
    contents endpoint requires, and fails with a 409 otherwise. *)
Definition conflict_error (p : string) : JsError :=
  mkError "HttpError" (p ++ " does not match " ++ "the current sha").

Definition static_api (pages : Z -> SearchData) (files : string -> ContentData)
  (current_sha : string -> string) (base_ref : string -> Res string) : GitHubApi unit :=
  mkApi unit
    (fun _ _ page w => (Ok (pages page), w))
    (fun _ _ p _ w => (Ok (files p), w))
    (fun owner repo w =>
       (Ok (mkRepoData repo (owner ++ "/" ++ repo) (Some "main") (Some false) None
              (Some false) None), w))
    (fun _ repo _ w => (base_ref repo, w))
    (fun _ _ _ _ w => (Ok tt, w))
    (fun _ _ p _ _ file_sha _ w =>
       (if String.eqb file_sha (current_sha p) then Ok tt else Throw (conflict_error p), w))
    (fun owner repo _ _ _ _ w =>
       (Ok (mkPullData 1 ("https://github.com/" ++ owner ++ "/" ++ repo ++ "/pull/1")), w))
    (fun _ _ _ _ w => (Ok tt, w))
    (fun _ => "2026-10-15T12:00:00.000Z").

Definition demo_config (s r : string) (dry : bool) : SearchReplaceConfig :=
  mkConfig "token" ["acme"] s r None (Some ["node_modules/"]) (Some false)
    (Some ["public"; "private"; "internal"]) (Some "automated-string-replacement")
    (Some "Replace {searchString} with {replacementString}")
    (Some "Replaces {searchString}") (Some ["automated"]) (Some dry) (Some 50).

Definition demo_repo (name : string) : SearchRepo :=
  mkSearchRepo ("acme/" ++ name) name "acme" (Some "main") (Some false) None (Some false).

Definition demo_item (repo p : string) : SearchItem :=
  mkSearchItem p ("https://github.com/acme/" ++ repo ++ "/blob/main/" ++ p) (demo_repo repo).

(** One page of hits, then an empty page. *)
Definition one_page (its : list SearchItem) (page : Z) : SearchData :=
  if page =? 1 then mkSearchData (Z.of_nat (List.length its)) its
  else mkSearchData (Z.of_nat (List.length its)) [].

Definition file_with (body : string) (p : string) : ContentData := CObj "file" body "s1".

(** Scenario of section 8 of the spec: [old.host] becomes [new.host]; the
    file also holds [oldXhost], which is not an occurrence. *)
Definition host_api : GitHubApi unit :=
  static_api (one_page [demo_item "site" "config.json"]) (file_with "old.host oldXhost")
    (fun _ => "s1") (fun _ => Ok "base").

Definition host_config : SearchReplaceConfig := demo_config "old.host" "new.host" false.

Definition host_match : FileMatch :=
  mkFileMatch "config.json" "old.host oldXhost" "s1" 2 "acme/site"
    "https://github.com/acme/site/blob/main/config.json".

Definition host_branch : string := "automated-string-replacement-20261015T120000".

(** A search string that starts with [^]: a version range. *)
Definition caret_api : GitHubApi unit :=
  static_api (one_page [demo_item "site" "deps.txt"]) (file_with "lodash@^4.17.21")
    (fun _ => "s1") (fun _ => Ok "base").

Definition caret_config : SearchReplaceConfig := demo_config "^4.17.21" "^4.17.22" false.

(** Two repositories; [config.json] of [acme/site] changed after the search
    (its sha is now [s2]). *)
Definition two_items : list SearchItem :=
  [demo_item "site" "config.json"; demo_item "docs" "README.md"].

Definition stale_api : GitHubApi unit :=
  static_api (one_page two_items) (file_with "url=old.host")
    (fun p => if String.eqb p "config.json" then "s2" else "s1") (fun _ => Ok "base").

(** The same repositories, nothing changed, but the base branch lookup of
    [acme/site] fails with an error carrying the same message. *)
Definition ref_failure_api : GitHubApi unit :=
  static_api (one_page two_items) (file_with "url=old.host") (fun _ => "s1")
    (fun r => if String.eqb r "site" then Throw (conflict_error "config.json") else Ok "base").

Definition site_match : FileMatch :=
  mkFileMatch "config.json" "url=old.host" "s1" 1 "acme/site"
    "https://github.com/acme/site/blob/main/config.json".

(** More than 1000 hits: every page is full and [total_count] is 2000; the
    hits are in an archived repository, so the filters skip them. *)
Definition archived_item : SearchItem :=
  mkSearchItem "a.txt" "https://github.com/acme/old/blob/main/a.txt"
    (mkSearchRepo "acme/old" "old" "acme" None (Some true) None None).

Definition full_pages (page : Z) : SearchData := mkSearchData 2000 (repeat archived_item 100).

Definition full_api : GitHubApi unit :=
  static_api full_pages (file_with "old.host") (fun _ => "s1") (fun _ => Ok "base").


(** Variations of [host_api] where one endpoint fails. *)
Definition not_found : JsError := mkError "HttpError" "Not Found".

Definition content_failure_api : GitHubApi unit :=
  mkApi unit (search_code host_api) (fun _ _ _ _ w => (Throw not_found, w))
    (repos_get host_api) (git_getRef host_api) (git_createRef host_api)
    (repos_createOrUpdateFileContents host_api) (pulls_create host_api)
    (issues_addLabels host_api) (date_now_iso host_api).

Definition repo_failure_api : GitHubApi unit :=
  mkApi unit (search_code host_api) (repos_getContent host_api)
    (fun _ _ w => (Throw not_found, w)) (git_getRef host_api) (git_createRef host_api)
    (repos_createOrUpdateFileContents host_api) (pulls_create host_api)
    (issues_addLabels host_api) (date_now_iso host_api).

Definition label_error : JsError := mkError "HttpError" "Label does not exist".

Definition labels_failure_api : GitHubApi unit :=
  mkApi unit (search_code host_api) (repos_getContent host_api) (repos_get host_api)
    (git_getRef host_api) (git_createRef host_api)
    (repos_createOrUpdateFileContents host_api) (pulls_create host_api)
    (fun _ _ _ _ w => (Throw label_error, w)) (date_now_iso host_api).

(** A hit whose path is a submodule. *)
Definition submodule_api : GitHubApi unit :=
  static_api (one_page [demo_item "site" "vendor/lib"]) (fun _ => CObj "submodule" "" "s9")
    (fun _ => "s1") (fun _ => Ok "base").

(** An engine whose constructor rejects every pattern. *)
Definition rejecting_regex : RegexEngine :=
  fun _ _ => Throw (mkError "SyntaxError" "Invalid regular expression").

(** [demo_config] with another [repositoryTypes]. *)
Definition types_config (types : list string) : SearchReplaceConfig :=
  mkConfig "token" ["acme"] "old.host" "new.host" None (Some ["node_modules/"]) (Some false)
    (Some types) (Some "automated-string-replacement")
    (Some "Replace {searchString} with {replacementString}")
    (Some "Replaces {searchString}") (Some ["automated"]) (Some false) (Some 50).

(** [host_config] without [prTitle]. *)
Definition untitled_config : SearchReplaceConfig :=
  mkConfig "token" ["acme"] "old.host" "new.host" None (Some ["node_modules/"]) (Some false)
    (Some ["public"; "private"; "internal"]) (Some "automated-string-replacement") None
    (Some "Replaces {searchString}") (Some ["automated"]) (Some false) (Some 50).

(** A search hit in a repository with [visibility: "internal"]. *)
Definition internal_repo : SearchRepo :=
  mkSearchRepo "acme/tools" "tools" "acme" (Some "main") (Some false) (Some "internal")
    (Some false).

Definition host_result : PRCreationResult :=
  mkPRResult "acme/site" 1 "https://github.com/acme/site/pull/1" 1 host_branch.

Definition st0 : St unit := mkSt tt [] summary0.

(** Process environments. *)
Definition env_of (kvs : list (string * string)) : Env :=
  fun k => match find (fun kv => String.eqb (fst kv) k) kvs with
           | Some kv => Some (snd kv)
           | None => None
           end.

Definition token_env : Env := env_of [("GITHUB_TOKEN", "token")].

Definition same_strings_env : Env :=
  env_of [("GITHUB_TOKEN", "token"); ("SEARCH_STRING", "old.host");
          ("REPLACEMENT_STRING", "old.host")].

Definition dry_run_1_env : Env := env_of [("GITHUB_TOKEN", "token"); ("DRY_RUN", "1")].

Definition orgs_env : Env := env_of [("GITHUB_ORGANIZATIONS", "acme,globex")].

(** ** Notions used by the statements *)

(** The same configuration with another [dryRun] flag. *)
Definition with_dryRun (d : option bool) (c : SearchReplaceConfig) : SearchReplaceConfig :=
  mkConfig c.(githubToken) c.(organizations) c.(searchString) c.(replacementString)
    c.(includeExtensions) c.(excludePatterns) c.(includeArchived) c.(repositoryTypes)
    c.(branchPrefix) c.(prTitle) c.(prBody) c.(prLabels) d c.(maxReposPerOrg).

(** The calls that change a repository: branch, commit, PR, labels (and the
    lookups the publisher makes before them). *)
Definition publish_event (ev : Event) : bool :=
  match ev with
  | EReposGet _ _ | EGetRef _ _ _ | ECreateRef _ _ _ _ | ECreateOrUpdateFile _ _ _ _ _ _ _
  | EPullsCreate _ _ _ _ _ _ | EAddLabels _ _ _ _ => true
  | _ => false
  end.

(** The [(per_page, page)] arguments of the search calls of a trace. *)
Definition search_calls (tr : list Event) : list (Z * Z) :=
  flat_map (fun ev => match ev with ESearchCode _ pp pg => [(pp, pg)] | _ => [] end) tr.

(** The spec's literal semantics (section 8 of the spec): occurrences of
    [needle] counted left to right without overlap, and each of them
    replaced by [repl] taken verbatim. *)
Fixpoint literal_count_fuel (fuel : nat) (needle s : string) : nat :=
  match fuel with
  | O => O
  | S f =>
      if String.prefix needle s then
        S (literal_count_fuel f needle
             (String.substring (String.length needle) (String.length s) s))
      else match s with
           | EmptyString => O
           | String _ rest => literal_count_fuel f needle rest
           end
  end.

Definition literal_count (needle s : string) : nat :=
  if String.eqb needle "" then O else literal_count_fuel (S (String.length s)) needle s.

Fixpoint literal_replace_fuel (fuel : nat) (needle repl s : string) : string :=
  match fuel with
  | O => s
  | S f =>
      if String.prefix needle s then
        repl ++ literal_replace_fuel f needle repl
                  (String.substring (String.length needle) (String.length s) s)
      else match s with
           | EmptyString => EmptyString
           | String c rest => String c (literal_replace_fuel f needle repl rest)
           end
  end.

Definition literal_replace_all (needle repl s : string) : string :=
  if String.eqb needle "" then s else literal_replace_fuel (S (String.length s)) needle repl s.

(** [fm] carries the body and [sha] of a [getContent] answer recorded in
    [tr] that is a single object of type ["file"]. *)
Definition fetched_file (tr : list Event) (fm : FileMatch) : Prop :=
  exists owner repo ref,
    In (EGetContent owner repo fm.(path) ref (Ok (CObj "file" fm.(content) fm.(sha)))) tr.

(** Every file of the match map contains the search string and was fetched
    as a file. *)
Definition matches_confirmed (needle : string) (tr : list Event) (m : MatchMap) : Prop :=
  forall k fms fm, In (k, fms) m -> In fm fms ->
    includes fm.(content) needle = true /\ fetched_file tr fm.

Definition fetch_warning_prefix : string := "Could not fetch content for ".

(** A warning in a trace is a per-file fetch warning. *)
Definition warn_is_fetch_warning (ev : Event) : Prop :=
  match ev with
  | ELog LWarn msg => String.prefix fetch_warning_prefix msg = true
  | _ => True
  end.

(** The [(path, sha, branch)] of the file updates of a trace. *)
Definition commit_targets (tr : list Event) : list (string * string * string) :=
  flat_map (fun ev => match ev with
                      | ECreateOrUpdateFile _ _ p _ _ file_sha br => [(p, file_sha, br)]
                      | _ => []
                      end) tr.

Definition is_pulls_create (ev : Event) : bool :=
  match ev with EPullsCreate _ _ _ _ _ _ => true | _ => false end.

(** [summary.totalFilesChanged] as the sum of the match lists' lengths. *)
Definition total_files (m : MatchMap) : Z :=
  fold_right Z.add 0 (map (fun e => Z.of_nat (List.length (snd e))) m).

(** A well-formed match map: one entry per repository, each with at least
    one file, every file of an entry belonging to that repository. *)
Definition match_map_wf (m : MatchMap) : Prop :=
  NoDup (map fst m) /\
  Forall (fun e => snd e <> [] /\ Forall (fun fm => repository fm = fst e) (snd e)) m.

(** The messages of the [warn] lines of a list of log lines. *)
Definition warn_lines (ls : list (PLevel * string)) : list string :=
  flat_map (fun l => match l with (PWarn, msg) => [msg] | (PInfo, _) => [] end) ls.

(** An environment with one variable changed. *)
Definition env_set (env : Env) (k : string) (v : option string) : Env :=
  fun k' => if String.eqb k' k then v else env k'.

(** The six exclude patterns of [getDefaultConfig()] without [*]. *)
Definition default_plain_patterns : list string :=
  [".git/"; "node_modules/"; "dist/"; "build/"; ".next/"; "coverage/"].

(** An event that updates no file. *)
Definition no_commit (ev : Event) : Prop := commit_targets [ev] = [].

(** [returns P m]: every value [m] returns satisfies [P]. *)
Definition returns {W A} (P : A -> Prop) (m : M W A) : Prop :=
  forall s, match fst (m s) with Ok a => P a | Throw _ => True end.

(** An ASCII decimal digit. *)
Definition is_digit (c : ascii) : bool :=
  Nat.leb 48 (nat_of_ascii c) && Nat.leb (nat_of_ascii c) 57.

Definition digits (x : string) : bool := forallb is_digit (list_ascii_of_string x).

(** Content that [getFileContent] does not return: a directory listing or
    an object whose [type] is not "file". *)
Definition non_file (c : ContentData) : Prop :=
  match c with CDir _ => True | CObj type _ _ => type <> "file" end.

(** [s.includes(c)] for one character. *)
Definition has_char (c : ascii) (s : string) : bool :=
  existsb (Ascii.eqb c) (list_ascii_of_string s).

(** [m] never throws, whatever the state it starts from. *)
Definition never_throws {W A} (m : M W A) : Prop :=
  forall s, match fst (m s) with Ok _ => True | Throw _ => False end.

(** An event that is not an error log line. *)
Definition not_error (ev : Event) : Prop :=
  match ev with ELog LError _ => False | _ => True end.

(** ** Frame properties of the effect monad

    [summary_frame m]: [m] leaves the summary cell alone.
    [trace_ext P m]: [m] only appends events satisfying [P] to the trace. *)
Section Frames.
Variable W : Type.

Definition summary_frame {A} (m : M W A) : Prop :=
  forall s, st_summary (snd (m s)) = st_summary s.

Definition trace_ext (P : Event -> Prop) {A} (m : M W A) : Prop :=
  forall s, exists t, st_trace (snd (m s)) = app (st_trace s) t /\ Forall P t.

Lemma frame_ret {A} (a : A) : summary_frame (ret a).
Proof. intros s; reflexivity. Qed.

Lemma frame_throw {A} e : summary_frame (A := A) (throw e).
Proof. intros s; reflexivity. Qed.

Lemma frame_bind {A B} (m : M W A) (k : A -> M W B) :
  summary_frame m -> (forall a, summary_frame (k a)) -> summary_frame (bind m k).
Proof.
  intros Hm Hk s; unfold bind; specialize (Hm s).
  destruct (m s) as [[a|e] s1]; simpl in *; [rewrite Hk|]; auto.
Qed.

Lemma frame_try {A} (m : M W A) h :
  summary_frame m -> (forall e, summary_frame (h e)) -> summary_frame (try_catch m h).
Proof.
  intros Hm Hh s; unfold try_catch; specialize (Hm s).
  destruct (m s) as [[a|e] s1]; simpl in *; [|rewrite Hh]; auto.
Qed.

Lemma frame_emit ev : summary_frame (emit ev).
Proof. intros s; reflexivity. Qed.

Lemma frame_call {A} ev (f : W -> Res A * W) : summary_frame (call ev f).
Proof. intros s; unfold call; destruct (f (st_world s)); reflexivity. Qed.

Lemma frame_lift {A} (r : Res A) : summary_frame (lift_res r).
Proof. intros s; reflexivity. Qed.

Lemma frame_now api : summary_frame (now_iso api).
Proof. intros s; reflexivity. Qed.

Lemma ext_ret P {A} (a : A) : trace_ext P (ret a).
Proof. intros s; exists []; rewrite app_nil_r; auto. Qed.

Lemma ext_throw P {A} e : trace_ext P (A := A) (throw e).
Proof. intros s; exists []; rewrite app_nil_r; auto. Qed.

Lemma ext_bind P {A B} (m : M W A) (k : A -> M W B) :
  trace_ext P m -> (forall a, trace_ext P (k a)) -> trace_ext P (bind m k).
Proof.
  intros Hm Hk s; unfold bind; destruct (Hm s) as [t1 [E1 F1]].
  destruct (m s) as [[a|e] s1]; simpl in *.
  - destruct (Hk a s1) as [t2 [E2 F2]]; exists (app t1 t2).
    rewrite E2, E1, app_assoc; split; auto; apply Forall_app; auto.
  - exists t1; auto.
Qed.

Lemma ext_try P {A} (m : M W A) h :
  trace_ext P m -> (forall e, trace_ext P (h e)) -> trace_ext P (try_catch m h).
Proof.
  intros Hm Hh s; unfold try_catch; destruct (Hm s) as [t1 [E1 F1]].
  destruct (m s) as [[a|e] s1]; simpl in *.
  - exists t1; auto.
  - destruct (Hh e s1) as [t2 [E2 F2]]; exists (app t1 t2).
    rewrite E2, E1, app_assoc; split; auto; apply Forall_app; auto.
Qed.

Lemma ext_emit (P : Event -> Prop) ev : P ev -> trace_ext P (emit ev).
Proof. intros Hp s; exists [ev]; auto. Qed.

Lemma ext_call (P : Event -> Prop) {A} ev (f : W -> Res A * W) :
  P ev -> trace_ext P (call ev f).
Proof. intros Hp s; unfold call; destruct (f (st_world s)); exists [ev]; auto. Qed.

Lemma ext_lift P {A} (r : Res A) : trace_ext P (lift_res r).
Proof. intros s; exists []; rewrite app_nil_r; auto. Qed.

Lemma ext_now P api : trace_ext P (now_iso api).
Proof. intros s; exists []; rewrite app_nil_r; auto. Qed.

Lemma ext_modify P f : trace_ext P (modify_summary (W := W) f).
Proof. intros s; exists []; rewrite app_nil_r; auto. Qed.

Lemma ext_get P : trace_ext P (get_summary (W := W)).
Proof. intros s; exists []; rewrite app_nil_r; auto. Qed.

Lemma ext_weaken (P Q : Event -> Prop) {A} (m : M W A) :
  (forall ev, P ev -> Q ev) -> trace_ext P m -> trace_ext Q m.
Proof.
  intros HPQ Hm s; destruct (Hm s) as [t [E F]]; exists t; split; auto.
  eapply Forall_impl; eauto.
Qed.

End Frames.

(** Steps through a monadic program built from the combinators. *)
Ltac frame_steps :=
  repeat (intros; cbv zeta;
    match goal with
    | |- summary_frame _ (bind _ _) => apply frame_bind
    | |- summary_frame _ (try_catch _ _) => apply frame_try
    | |- summary_frame _ (ret _) => apply frame_ret
    | |- summary_frame _ (throw _) => apply frame_throw
    | |- summary_frame _ (emit _) => apply frame_emit
    | |- summary_frame _ (warn _) => apply frame_emit
    | |- summary_frame _ (error _) => apply frame_emit
    | |- summary_frame _ (call _ _) => apply frame_call
    | |- summary_frame _ (lift_res _) => apply frame_lift
    | |- summary_frame _ (now_iso _) => apply frame_now
    | |- trace_ext _ _ (bind _ _) => apply ext_bind
    | |- trace_ext _ _ (try_catch _ _) => apply ext_try
    | |- trace_ext _ _ (ret _) => apply ext_ret
    | |- trace_ext _ _ (throw _) => apply ext_throw
    | |- trace_ext _ _ (lift_res _) => apply ext_lift
    | |- trace_ext _ _ (now_iso _) => apply ext_now
    | |- trace_ext _ _ (modify_summary _) => apply ext_modify
    | |- trace_ext _ _ get_summary => apply ext_get
    | |- trace_ext _ _ (emit _) => apply ext_emit
    | |- trace_ext _ _ (warn _) => apply ext_emit
    | |- trace_ext _ _ (error _) => apply ext_emit
    | |- trace_ext _ _ (call _ _) => apply ext_call
    | |- _ _ (match ?x with _ => _ end) => destruct x
    | |- _ _ _ (match ?x with _ => _ end) => destruct x
    | |- _ _ (if ?b then _ else _) => destruct b
    | |- _ _ _ (if ?b then _ else _) => destruct b
    end).

(** ** Effects of the search *)

(** The effects of processing the hits of one page: content fetches and
    the per-file fetch warnings. *)
Definition item_event (ev : Event) : Prop :=
  match ev with
  | EGetContent _ _ _ _ _ => True
  | ELog LWarn msg => String.prefix fetch_warning_prefix msg = true
  | _ => False
  end.

(** The effects the search can have at all: no branch, commit, PR or label
    call. *)
Definition search_event (ev : Event) : Prop :=
  match ev with
  | ESearchCode _ _ _ | EGetContent _ _ _ _ _ | EDelay _ | ELog _ _ => True
  | _ => False
  end.

Lemma prefix_app (a b : string) : String.prefix a (a ++ b) = true.
Proof.
  induction a as [|c a IH]; simpl; [destruct b; reflexivity|].
  destruct (ascii_dec c c) as [_|n]; [exact IH|congruence].
Qed.

Section SearchEffects.
Variable W : Type.
Variable api : GitHubApi W.
Variable regex : RegexEngine.
Variable config : SearchReplaceConfig.

Lemma getContent_call_ext (P : Event -> Prop) owner repo p ref :
  (forall r, P (EGetContent owner repo p ref r)) ->
  trace_ext W P (getContent_call W api owner repo p ref).
Proof.
  intros HP s; unfold getContent_call.
  destruct (repos_getContent api owner repo p ref (st_world s)) as [r w'].
  exists [EGetContent owner repo p ref r]; auto.
Qed.

Lemma getContent_call_frame owner repo p ref :
  summary_frame W (getContent_call W api owner repo p ref).
Proof.
  intros s; unfold getContent_call.
  destruct (repos_getContent api owner repo p ref (st_world s)); reflexivity.
Qed.

Lemma some_excludes_ext P patterns p :
  trace_ext W P (some_excludes W regex patterns p).
Proof. induction patterns; simpl; frame_steps; auto. Qed.

Lemma some_excludes_frame patterns p :
  summary_frame W (some_excludes W regex patterns p).
Proof. induction patterns; simpl; frame_steps; auto. Qed.

Lemma process_item_ext item acc :
  trace_ext W item_event (process_item W api regex config item acc).
Proof.
  unfold process_item, shouldExcludePath, getFileContent; frame_steps;
    try apply some_excludes_ext; try (apply getContent_call_ext; intros; exact I).
  apply (prefix_app fetch_warning_prefix).
Qed.

Lemma process_item_frame item acc :
  summary_frame W (process_item W api regex config item acc).
Proof.
  unfold process_item, shouldExcludePath, getFileContent; frame_steps;
    try apply some_excludes_frame; try apply getContent_call_frame.
Qed.

Lemma process_items_ext its acc :
  trace_ext W item_event (process_items W api regex config its acc).
Proof.
  revert acc; induction its; intros; simpl; frame_steps; auto using process_item_ext.
Qed.

Lemma process_items_frame its acc :
  summary_frame W (process_items W api regex config its acc).
Proof.
  revert acc; induction its; intros; simpl; frame_steps; auto using process_item_frame.
Qed.

Lemma search_pages_ext fuel page more acc :
  trace_ext W search_event (search_pages W api regex config fuel page more acc).
Proof.
  revert page more acc; induction fuel; intros; simpl; frame_steps; simpl; auto.
  eapply ext_weaken; [|apply process_items_ext].
  intros [] H; simpl in *; auto.
Qed.

Lemma search_pages_frame fuel page more acc :
  summary_frame W (search_pages W api regex config fuel page more acc).
Proof.
  revert page more acc; induction fuel; intros; simpl; frame_steps; auto.
  apply process_items_frame.
Qed.

Lemma search_ext : trace_ext W search_event (searchAcrossOrganizations W api regex config).
Proof.
  unfold searchAcrossOrganizations; apply ext_try;
    [apply search_pages_ext | frame_steps; simpl; auto].
Qed.

Lemma search_frame : summary_frame W (searchAcrossOrganizations W api regex config).
Proof.
  unfold searchAcrossOrganizations; frame_steps; auto using search_pages_frame.
Qed.

End SearchEffects.

(** ** Effects of publishing *)
Section PublishEffects.
Variable W : Type.
Variable api : GitHubApi W.
Variable regex : RegexEngine.
Variable config : SearchReplaceConfig.

Lemma getRepositoryInfo_frame full :
  summary_frame W (getRepositoryInfo W api full).
Proof. unfold getRepositoryInfo; frame_steps. Qed.

Lemma commit_files_frame owner repo branch matches :
  summary_frame W (commit_files W api regex config owner repo branch matches).
Proof. induction matches; simpl; frame_steps; auto. Qed.

Lemma createPullRequest_frame full matches :
  summary_frame W (createPullRequest W api regex config full matches).
Proof.
  unfold createPullRequest, fill_template, add_labels_step; frame_steps;
    auto using getRepositoryInfo_frame, commit_files_frame.
Qed.

End PublishEffects.

(** ** Invariants of the summary cell *)
Section SummaryInv.
Variable W : Type.
Variable I : ExecutionSummary -> Prop.

Definition summary_inv {A} (m : M W A) : Prop :=
  forall s, I (st_summary s) -> I (st_summary (snd (m s))).

Lemma inv_of_frame {A} (m : M W A) : summary_frame W m -> summary_inv m.
Proof. intros H s Hs; rewrite H; exact Hs. Qed.

Lemma inv_bind {A B} (m : M W A) (k : A -> M W B) :
  summary_inv m -> (forall a, summary_inv (k a)) -> summary_inv (bind m k).
Proof.
  intros Hm Hk s Hs; unfold bind; specialize (Hm s Hs).
  destruct (m s) as [[a|e] s1]; simpl in *; auto; apply Hk; auto.
Qed.

Lemma inv_try {A} (m : M W A) h :
  summary_inv m -> (forall e, summary_inv (h e)) -> summary_inv (try_catch m h).
Proof.
  intros Hm Hh s Hs; unfold try_catch; specialize (Hm s Hs).
  destruct (m s) as [[a|e] s1]; simpl in *; auto; apply Hh; auto.
Qed.

Lemma inv_modify f : (forall x, I x -> I (f x)) -> summary_inv (modify_summary f).
Proof. intros Hf s Hs; apply Hf; exact Hs. Qed.

End SummaryInv.

Ltac inv_steps :=
  repeat (intros; cbv zeta;
    match goal with
    | |- summary_inv _ _ (bind _ _) => apply inv_bind
    | |- summary_inv _ _ (try_catch _ _) => apply inv_try
    | |- summary_inv _ _ (modify_summary _) => apply inv_modify
    | |- summary_inv _ _ (match ?x with _ => _ end) => destruct x
    | |- summary_inv _ _ (if ?b then _ else _) => destruct b
    | |- summary_inv _ _ _ => apply inv_of_frame; frame_steps
    end).

(** ** Orchestrator lemmas *)
Section OrchestratorFacts.
Variable W : Type.
Variable api : GitHubApi W.
Variable regex : RegexEngine.
Variable config : SearchReplaceConfig.

(** Invariants kept by every update the orchestrator makes. *)
Record kept_by_updates (I : ExecutionSummary -> Prop) : Prop := {
  kept_files : forall x n, I x -> I (add_filesChanged n x);
  kept_success : forall x r, I x -> I (record_success r x);
  kept_failed : forall x, I x -> I (incr_failedPRs x);
  kept_error : forall x m, I x -> I (push_error m x);
  kept_matches : forall x n, I x -> I (set_repositoriesWithMatches n x)
}.

Lemma process_repository_inv I repo matches :
  kept_by_updates I -> summary_inv W I (process_repository W api regex config repo matches).
Proof.
  intros [Kf Ks Kfl Ke Km]; unfold process_repository; inv_steps;
    eauto using createPullRequest_frame.
Qed.

Lemma process_repositories_inv I results :
  kept_by_updates I -> summary_inv W I (process_repositories W api regex config results).
Proof.
  intros K; induction results as [|[repo matches] rest IH]; simpl.
  - apply inv_of_frame, frame_ret.
  - apply inv_bind; auto using process_repository_inv.
Qed.

(** A returned summary is the final content of the summary cell, which
    starts as [summary0]. *)
Lemma executeSearchReplace_ok_inv (I : ExecutionSummary -> Prop) w sum s' :
  (forall x n, I x -> I (set_repositoriesWithMatches n x)) ->
  (forall x m, I x -> I (push_error m x)) ->
  (forall results, summary_inv W I (process_repositories W api regex config results)) ->
  I summary0 ->
  run (executeSearchReplace W api regex config) w = (Ok sum, s') -> I sum.
Proof.
  intros Km Ke Kp H0 Hrun; unfold run, executeSearchReplace in Hrun.
  destruct (Nat.ltb 0 (List.length (validateConfig config))); [discriminate|].
  assert (Hinv : summary_inv W I
    (try_catch (search_and_process W api regex config)
       (record_search_error W))).
  { apply inv_try; intros; unfold search_and_process, record_search_error;
      apply inv_bind; intros.
    - apply inv_of_frame, search_frame.
    - apply inv_bind; intros; [apply inv_modify; auto|apply Kp].
    - apply inv_modify; auto.
    - apply inv_of_frame, frame_emit. }
  unfold bind at 1 in Hrun; simpl in Hrun.
  specialize (Hinv (mkSt w [] summary0) H0); simpl in Hinv.
  unfold bind in Hrun.
  destruct (try_catch _ _ _) as [[u|e] s1]; simpl in *; [|discriminate].
  unfold get_summary in Hrun; inversion Hrun; subst; exact Hinv.
Qed.

(** An invalid configuration throws at once, with no effect at all. *)
Lemma invalid_config_no_effect w :
  validateConfig config <> [] ->
  run (executeSearchReplace W api regex config) w
  = (Throw (Error ("Configuration errors: " ++ join ", " (validateConfig config))),
     mkSt w [] summary0).
Proof.
  intros H; unfold run, executeSearchReplace.
  destruct (validateConfig config) as [|e0 rest]; [congruence|reflexivity].
Qed.

(** The run of a valid configuration. *)
Lemma executeSearchReplace_valid w :
  validateConfig config = [] ->
  run (executeSearchReplace W api regex config) w
  = match try_catch (search_and_process W api regex config) (record_search_error W)
            (mkSt w [] summary0) with
    | (Ok _, s1) => (Ok (st_summary s1), s1)
    | (Throw e, s1) => (Throw e, s1)
    end.
Proof.
  intros Ev; unfold run, executeSearchReplace; rewrite Ev; simpl.
  unfold bind at 1; simpl.
  unfold bind; destruct (try_catch _ _ _) as [[]] ; reflexivity.
Qed.


(** [process_repository] itself never throws. *)
Lemma process_repository_ok repo matches s :
  fst (process_repository W api regex config repo matches s) = Ok tt.
Proof.
  unfold process_repository, try_catch, bind, modify_summary.
  destruct (opt_truthy (dryRun config)); [reflexivity|].
  destruct (createPullRequest W api regex config repo matches _) as [[r|e] s2];
    reflexivity.
Qed.

End OrchestratorFacts.

(** ** Publishing failures inside the repository loop *)
Section RepoLoop.
Variable W : Type.
Variable api : GitHubApi W.
Variable regex : RegexEngine.
Variable config : SearchReplaceConfig.

(** A throw of [createPullRequest] is recorded by the repository's iteration. *)
Lemma process_repository_failure repo matches s e s2 :
  opt_truthy (dryRun config) = false ->
  createPullRequest W api regex config repo matches
    (mkSt (st_world s) (st_trace s)
       (add_filesChanged (Z.of_nat (List.length matches)) (st_summary s)))
  = (Throw e, s2) ->
  process_repository W api regex config repo matches s
  = (Ok tt,
     mkSt (st_world s2)
       (app (st_trace s2)
          [ELog LError ("Failed to create PR for " ++ repo ++ ": " ++ err_message e)])
       (push_error ("Failed to create PR for " ++ repo ++ ": " ++ err_message e)
          (incr_failedPRs
             (add_filesChanged (Z.of_nat (List.length matches)) (st_summary s))))).
Proof.
  intros Hd Hc.
  pose proof (createPullRequest_frame W api regex config repo matches
                (mkSt (st_world s) (st_trace s)
                   (add_filesChanged (Z.of_nat (List.length matches)) (st_summary s))))
    as Hf.
  rewrite Hc in Hf; simpl in Hf.
  unfold process_repository, try_catch, bind, modify_summary; rewrite Hd, Hc.
  unfold error, emit; simpl; rewrite Hf; reflexivity.
Qed.






(** A rejected contents update stops [commit_files] with the server's error. *)
Lemma commit_files_update_failure o rp br pre m rest s s1 nc e w' :
  commit_files W api regex config o rp br pre s = (Ok tt, s1) ->
  regex_replace_all regex (searchString config) (content m) (replacementString config)
    = Ok nc ->
  repos_createOrUpdateFileContents api o rp (path m)
    ("Replace " ++ searchString config ++ " with " ++ replacementString config)
    nc (sha m) br (st_world s1) = (Throw e, w') ->
  commit_files W api regex config o rp br (app pre (m :: rest)) s
  = (Throw e,
     mkSt w'
       (app (st_trace s1)
          [ECreateOrUpdateFile o rp (path m)
             ("Replace " ++ searchString config ++ " with " ++ replacementString config)
             nc (sha m) br])
       (st_summary s1)).
Proof.
  revert s; induction pre as [|m0 pre IH]; intros s Hp Hr Hu; cbn [commit_files app] in Hp |- *.
  - injection Hp as <-.
    unfold bind at 1, lift_res; rewrite Hr.
    unfold bind, call; rewrite Hu; reflexivity.
  - unfold bind, lift_res, call in Hp |- *.
    destruct (regex_replace_all regex (searchString config) (content m0)
                (replacementString config)) as [nc0|e0]; [|discriminate].
    destruct (repos_createOrUpdateFileContents api o rp (path m0) _ nc0 (sha m0) br
                (st_world s)) as [[[]|e1] w1]; [|discriminate].
    apply IH; assumption.
Qed.

(** An error of [commit_files] is logged and rethrown unchanged by
    [createPullRequest]. *)
Lemma createPullRequest_rethrows_commit_error R matches s data w1 base w2 w3 e s4 :
  let o := fst (owner_repo R) in
  let rp := snd (owner_repo R) in
  let dflt := or_default (rd_default_branch data) "main" in
  let branch := show_opt (branchPrefix config) ++ "-"
                ++ strip_colon_dash (slice0 19 (date_now_iso api (st_world s))) in
  repos_get api o rp (st_world s) = (Ok data, w1) ->
  git_getRef api o rp ("heads/" ++ dflt) w1 = (Ok base, w2) ->
  git_createRef api o rp ("refs/heads/" ++ branch) base w2 = (Ok tt, w3) ->
  commit_files W api regex config o rp branch matches
    (mkSt w3
       (app (st_trace s)
          [EReposGet o rp; EGetRef o rp ("heads/" ++ dflt);
           ECreateRef o rp ("refs/heads/" ++ branch) base])
       (st_summary s))
  = (Throw e, s4) ->
  createPullRequest W api regex config R matches s
  = (Throw e,
     mkSt (st_world s4)
       (app (st_trace s4) [ELog LError ("Failed to create PR for " ++ R ++ ": " ++ err_message e)])
       (st_summary s4)).
Proof.
  intros o rp dflt branch Hg Hr Hc Hf; subst o rp dflt branch.
  unfold createPullRequest, bind at 1, now_iso; cbv zeta.
  destruct (owner_repo R) as [o rp] eqn:Eo; cbn [fst snd] in *.
  unfold try_catch at 1, bind at 1, getRepositoryInfo; rewrite Eo.
  unfold try_catch at 1, bind at 1, call at 1; rewrite Hg.
  unfold ret at 1; cbn [st_world st_trace st_summary].
  unfold bind at 1, call at 1; cbn [st_world st_trace st_summary defaultBranch]; rewrite Hr.
  unfold bind at 1, call at 1; cbn [st_world st_trace st_summary]; rewrite Hc.
  unfold bind at 1.
  rewrite <- !app_assoc; cbn [app]; rewrite Hf.
  reflexivity.
Qed.

End RepoLoop.


(** * Claims *)

(** C9: every summary returned by [executeSearchReplace] has
    [totalRepositories = 0]; no path ever updates the field. *)
Theorem totalRepositories_always_zero (W : Type) (api : GitHubApi W) (regex : RegexEngine)
  (config : SearchReplaceConfig) (w : W) :
  match fst (run (executeSearchReplace W api regex config) w) with
  | Ok sum => totalRepositories sum = 0
  | Throw _ => True
  end.
Proof.
  destruct (run (executeSearchReplace W api regex config) w) as [[sum|e] s'] eqn:E;
    simpl; auto.
  apply (executeSearchReplace_ok_inv W api regex config (fun x => totalRepositories x = 0)
           w sum s'); simpl; auto.
  intros; apply process_repositories_inv; split; intros; simpl; auto.
Qed.


(** C7: equal search and replacement strings make [validateConfig] report
    an error, and [executeSearchReplace] then throws from the initial state:
    no call, no log line, no summary update. *)
Theorem same_strings_rejected_without_effects (W : Type) (api : GitHubApi W)
  (regex : RegexEngine) (config : SearchReplaceConfig) (w : W) :
  searchString config = replacementString config ->
  validateConfig config <> [] /\
  run (executeSearchReplace W api regex config) w
  = (Throw (Error ("Configuration errors: " ++ join ", " (validateConfig config))),
     mkSt w [] summary0).
Proof.
  intros Heq.
  assert (Hne : validateConfig config <> []).
  { unfold validateConfig; rewrite Heq, String.eqb_refl.
    intros H; apply app_eq_nil in H as [_ H]; apply app_eq_nil in H as [_ H];
      apply app_eq_nil in H as [_ H]; apply app_eq_nil in H as [_ H]; discriminate. }
  split; [exact Hne|].
  apply invalid_config_no_effect; exact Hne.
Qed.

(** C10: an empty replacement string is rejected by [validateConfig] with
    "Replacement string is required", so a deleting run throws before any
    effect. *)
Theorem empty_replacement_rejected (W : Type) (api : GitHubApi W)
  (regex : RegexEngine) (config : SearchReplaceConfig) (w : W) :
  replacementString config = "" ->
  In "Replacement string is required" (validateConfig config) /\
  run (executeSearchReplace W api regex config) w
  = (Throw (Error ("Configuration errors: " ++ join ", " (validateConfig config))),
     mkSt w [] summary0).
Proof.
  intros Hr.
  assert (Hin : In "Replacement string is required" (validateConfig config)).
  { unfold validateConfig; rewrite Hr.
    apply in_or_app; right; apply in_or_app; right; apply in_or_app; right.
    apply in_or_app; left; left; reflexivity. }
  split; [exact Hin|].
  apply invalid_config_no_effect; intros H; rewrite H in Hin; destruct Hin.
Qed.

(** In a dry run the repository loop only updates the summary cell. *)
Lemma process_repositories_dry_ext (W : Type) (api : GitHubApi W) (regex : RegexEngine)
  (config : SearchReplaceConfig) results :
  dryRun config = Some true ->
  trace_ext W (fun ev => publish_event ev = false)
    (process_repositories W api regex config results).
Proof.
  intros Hd; induction results as [|[repo matches] rest IH]; simpl; [apply ext_ret|].
  apply ext_bind; intros; auto.
  unfold process_repository; rewrite Hd; simpl; frame_steps; reflexivity.
Qed.

Lemma process_repositories_dry_inv (W : Type) (api : GitHubApi W) (regex : RegexEngine)
  (config : SearchReplaceConfig) results :
  dryRun config = Some true ->
  summary_inv W (fun x => successfulPRs x = 0 /\ prs x = [])
    (process_repositories W api regex config results).
Proof.
  intros Hd; induction results as [|[repo matches] rest IH]; simpl;
    [apply inv_of_frame, frame_ret|].
  apply inv_bind; intros; auto.
  unfold process_repository; rewrite Hd; simpl; inv_steps; simpl; auto.
Qed.

(** C8: a dry run discovers exactly what the same configuration with
    [dryRun = false] discovers (the search does not read the flag), makes
    no branch, commit, PR or label call (nor the repository lookups that
    precede them), and returns [successfulPRs = 0] with no PR. *)
Theorem dry_run_publishes_nothing (W : Type) (api : GitHubApi W) (regex : RegexEngine)
  (config : SearchReplaceConfig) (w : W) :
  dryRun config = Some true ->
  (forall s, searchAcrossOrganizations W api regex config s
             = searchAcrossOrganizations W api regex (with_dryRun (Some false) config) s)
  /\ Forall (fun ev => publish_event ev = false)
       (st_trace (snd (run (executeSearchReplace W api regex config) w)))
  /\ match fst (run (executeSearchReplace W api regex config) w) with
     | Ok sum => successfulPRs sum = 0 /\ prs sum = []
     | Throw _ => True
     end.
Proof.
  intros Hd; split; [|split].
  - intros s; destruct config; reflexivity.
  - assert (Hext : trace_ext W (fun ev => publish_event ev = false)
                     (executeSearchReplace W api regex config)).
    { unfold executeSearchReplace, search_and_process, record_search_error.
      destruct (Nat.ltb 0 _); [apply ext_throw|].
      apply ext_bind; intros; [apply ext_modify|].
      apply ext_bind; intros; [|apply ext_get].
      apply ext_try; intros.
      + apply ext_bind; intros.
        * eapply ext_weaken; [|apply search_ext]; intros [] H; simpl in *; tauto.
        * apply ext_bind; intros; [apply ext_modify|].
          apply process_repositories_dry_ext; exact Hd.
      + frame_steps; reflexivity. }
    destruct (Hext (mkSt w [] summary0)) as [t [E F]]; unfold run; rewrite E; exact F.
  - destruct (run (executeSearchReplace W api regex config) w) as [[sum|e] s'] eqn:E;
      simpl; auto.
    apply (executeSearchReplace_ok_inv W api regex config
             (fun x => successfulPRs x = 0 /\ prs x = []) w sum s'); simpl; auto.
    intros; apply process_repositories_dry_inv; exact Hd.
Qed.

(** ** The match map only holds confirmed files *)

Lemma ext_true_app (W A : Type) (m : M W A) s :
  trace_ext W (fun _ => True) m -> exists t, st_trace (snd (m s)) = app (st_trace s) t.
Proof. intros H; destruct (H s) as [t [E _]]; eauto. Qed.

Lemma confirmed_app needle tr t m :
  matches_confirmed needle tr m -> matches_confirmed needle (app tr t) m.
Proof.
  intros H k fms fm Hk Hfm; destruct (H k fms fm Hk Hfm) as [Hi [o [r [ref Hin]]]].
  split; [exact Hi|]; exists o, r, ref; apply in_or_app; left; exact Hin.
Qed.

Lemma map_push_in k v m k' fms fm :
  In (k', fms) (map_push k v m) -> In fm fms ->
  fm = v \/ exists fms0, In (k', fms0) m /\ In fm fms0.
Proof.
  induction m as [|[k0 vs] rest IH]; simpl.
  - intros [H|[]] Hfm; inversion H; subst; destruct Hfm as [->|[]]; auto.
  - destruct (String.eqb k k0).
    + intros [H|H] Hfm.
      * inversion H; subst; apply in_app_or in Hfm as [Hfm|[->|[]]]; auto.
        right; exists vs; auto.
      * right; exists fms; auto.
    + intros [H|H] Hfm.
      * inversion H; subst; right; exists fms; auto.
      * destruct (IH H Hfm) as [->|[fms0 [H1 H2]]]; auto.
        right; exists fms0; auto.
Qed.

Lemma confirmed_push needle tr k v m :
  matches_confirmed needle tr m -> includes v.(content) needle = true ->
  fetched_file tr v -> matches_confirmed needle tr (map_push k v m).
Proof.
  intros H Hi Hf k' fms fm Hk Hfm.
  destruct (map_push_in k v m k' fms fm Hk Hfm) as [->|[fms0 [H1 H2]]]; auto.
  exact (H k' fms0 fm H1 H2).
Qed.

Section Confirmed.
Variable W : Type.
Variable api : GitHubApi W.
Variable regex : RegexEngine.
Variable config : SearchReplaceConfig.

Lemma getFileContent_some owner repo p ref s body h s' :
  getFileContent W api owner repo p ref s = (Ok (Some (body, h)), s') ->
  st_trace s' = app (st_trace s) [EGetContent owner repo p ref (Ok (CObj "file" body h))].
Proof.
  unfold getFileContent, try_catch, bind, getContent_call.
  destruct (repos_getContent api owner repo p ref (st_world s)) as [[d|e] w'];
    simpl; [|discriminate].
  destruct d as [entries|type b sh]; [discriminate|].
  destruct (negb (String.eqb type "file")) eqn:Et; [discriminate|].
  apply negb_false_iff, String.eqb_eq in Et; subst type.
  unfold ret; intros H; inversion H; subst; reflexivity.
Qed.

Lemma getFileContent_ext owner repo p ref :
  trace_ext W (fun _ => True) (getFileContent W api owner repo p ref).
Proof.
  unfold getFileContent; frame_steps; auto; apply getContent_call_ext; auto.
Qed.

Lemma shouldExcludePath_ext p : trace_ext W (fun _ => True) (shouldExcludePath W regex config p).
Proof. unfold shouldExcludePath; frame_steps; apply some_excludes_ext. Qed.

Lemma process_item_confirmed item acc s :
  matches_confirmed (searchString config) (st_trace s) acc ->
  match process_item W api regex config item acc s with
  | (Ok acc', s') => matches_confirmed (searchString config) (st_trace s') acc'
  | (Throw _, _) => True
  end.
Proof.
  intros H; unfold process_item; cbv zeta.
  destruct (shouldProcessRepository config (item_repository item)); simpl; [|exact H].
  unfold bind at 1.
  destruct (ext_true_app _ _ _ s (shouldExcludePath_ext (item_path item))) as [t1 E1].
  destruct (shouldExcludePath W regex config (item_path item) s) as [[ex|e] s1];
    simpl in E1; [|exact I].
  assert (H1 : matches_confirmed (searchString config) (st_trace s1) acc)
    by (rewrite E1; apply confirmed_app; exact H).
  destruct ex; [exact H1|].
  unfold try_catch, bind at 1.
  set (o := owner_login (item_repository item)).
  set (r := sr_name (item_repository item)).
  set (ref := or_default (default_branch (item_repository item)) "main").
  destruct (ext_true_app _ _ _ s1 (getFileContent_ext o r (item_path item) ref)) as [t2 E2].
  destruct (getFileContent W api o r (item_path item) ref s1) as [[fc|e] s2] eqn:Eg;
    simpl in E2.
  - assert (H2 : matches_confirmed (searchString config) (st_trace s2) acc)
      by (rewrite E2; apply confirmed_app; exact H1).
    destruct fc as [[body h]|]; [|exact H2].
    apply getFileContent_some in Eg.
    destruct (includes body (searchString config)) eqn:Ei; [|exact H2].
    unfold bind, lift_res, regex_match_count.
    destruct (regex (searchString config) body) as [ms|e]; simpl.
    + apply confirmed_push; simpl; auto.
      exists o, r, ref; rewrite Eg; apply in_or_app; right; left; reflexivity.
    + apply (confirmed_app _ _ [_]); exact H2.
  - unfold bind, warn, emit, ret; simpl.
    apply (confirmed_app _ _ [_]); rewrite E2; apply confirmed_app; exact H1.
Qed.

Lemma process_items_confirmed its acc s :
  matches_confirmed (searchString config) (st_trace s) acc ->
  match process_items W api regex config its acc s with
  | (Ok acc', s') => matches_confirmed (searchString config) (st_trace s') acc'
  | (Throw _, _) => True
  end.
Proof.
  revert acc s; induction its as [|item rest IH]; intros acc s H; simpl; [exact H|].
  unfold bind at 1.
  pose proof (process_item_confirmed item acc s H) as Hi.
  destruct (process_item W api regex config item acc s) as [[acc1|e] s1]; simpl;
    [apply IH; exact Hi|exact I].
Qed.

Lemma search_pages_confirmed fuel page more acc s :
  matches_confirmed (searchString config) (st_trace s) acc ->
  match search_pages W api regex config fuel page more acc s with
  | (Ok acc', s') => matches_confirmed (searchString config) (st_trace s') acc'
  | (Throw _, _) => True
  end.
Proof.
  revert page more acc s; induction fuel as [|f IH]; intros page more acc s H; simpl;
    [exact H|].
  destruct (more && (page <=? 10)); [|exact H].
  unfold bind at 1, call.
  destruct (search_code api (searchQuery config) perPage page (st_world s)) as [[data|e] w1];
    simpl; [|exact I].
  set (s1 := mkSt w1 (app (st_trace s) [ESearchCode (searchQuery config) perPage page])
               (st_summary s)).
  assert (H1 : matches_confirmed (searchString config) (st_trace s1) acc)
    by (apply confirmed_app; exact H).
  destruct (Nat.eqb (List.length (items data)) 0); [exact H1|].
  unfold bind at 1.
  pose proof (process_items_confirmed (items data) acc s1 H1) as Hp.
  destruct (process_items W api regex config (items data) acc s1) as [[m|e] s2];
    [|exact I].
  unfold bind at 1.
  destruct (_ && _) eqn:Emore; simpl.
  - apply IH; apply (confirmed_app _ _ [_]); exact Hp.
  - apply IH; exact Hp.
Qed.

End Confirmed.

(** C6: every file of the returned match map was fetched as an object of
    type ["file"] whose body is the one stored, and that body contains the
    search string; hits that were directories, non-file objects, or no
    longer contain the string are left out. *)
Theorem search_keeps_only_confirmed_files (W : Type) (api : GitHubApi W)
  (regex : RegexEngine) (config : SearchReplaceConfig) (w : W) :
  match run (searchAcrossOrganizations W api regex config) w with
  | (Ok m, s') => matches_confirmed (searchString config) (st_trace s') m
  | (Throw _, _) => True
  end.
Proof.
  unfold run, searchAcrossOrganizations, try_catch.
  assert (H0 : matches_confirmed (searchString config) [] []) by (intros k fms fm []).
  pose proof (search_pages_confirmed W api regex config 10 1 true [] (mkSt w [] summary0) H0)
    as Hp.
  destruct (search_pages W api regex config 10 1 true [] (mkSt w [] summary0))
    as [[m|e] s1]; [exact Hp|].
  unfold bind, error, emit, throw; simpl; exact I.
Qed.

(** ** Pagination of the search *)

Lemma search_calls_app t1 t2 : search_calls (app t1 t2) = app (search_calls t1) (search_calls t2).
Proof. unfold search_calls; apply flat_map_app. Qed.

Lemma search_calls_items t : Forall item_event t -> search_calls t = [].
Proof. induction 1 as [|[] t H _ IH]; simpl in *; try contradiction; auto. Qed.

Lemma items_warn_ok t : Forall item_event t -> Forall warn_is_fetch_warning t.
Proof.
  intros H; eapply Forall_impl; [|exact H].
  intros [] Hi; simpl in *; auto; match goal with l : Level |- _ => destruct l end; auto.
Qed.

Section Pagination.
Variable W : Type.
Variable api : GitHubApi W.
Variable regex : RegexEngine.
Variable config : SearchReplaceConfig.

Lemma search_pages_calls fuel page more acc s :
  exists t k,
    st_trace (snd (search_pages W api regex config fuel page more acc s)) = app (st_trace s) t
    /\ Forall warn_is_fetch_warning t
    /\ search_calls t = map (fun i => (perPage, page + Z.of_nat i)) (seq 0 k)
    /\ (k = O \/ page + Z.of_nat k - 1 <= 10).
Proof.
  revert page more acc s; induction fuel as [|f IH]; intros page more acc s; simpl.
  { exists [], O; rewrite app_nil_r; auto. }
  destruct (more && (page <=? 10)) eqn:G;
    [|exists [], O; rewrite app_nil_r; auto].
  apply andb_true_iff in G as [_ G]; apply Z.leb_le in G.
  unfold bind at 1, call.
  set (ev := ESearchCode (searchQuery config) perPage page).
  assert (Hone : search_calls [ev] = map (fun i => (perPage, page + Z.of_nat i)) (seq 0 1))
    by (simpl; rewrite Z.add_0_r; reflexivity).
  assert (Hsingle : forall tr, tr = app (st_trace s) [ev] ->
            exists t k, tr = app (st_trace s) t
              /\ Forall warn_is_fetch_warning t
              /\ search_calls t = map (fun i => (perPage, page + Z.of_nat i)) (seq 0 k)
              /\ (k = O \/ page + Z.of_nat k - 1 <= 10)).
  { intros tr ->; exists [ev], 1%nat; repeat split; auto; [constructor; [exact I|constructor]|right; lia]. }
  destruct (search_code api (searchQuery config) perPage page (st_world s)) as [[data|e] w1];
    simpl; [|apply Hsingle; reflexivity].
  destruct (Nat.eqb (List.length (items data)) 0); [apply Hsingle; reflexivity|].
  set (s1 := mkSt w1 (app (st_trace s) [ev]) (st_summary s)).
  unfold bind at 1.
  destruct (process_items_ext W api regex config (items data) acc s1) as [t2 [E2 F2]].
  destruct (process_items W api regex config (items data) acc s1) as [[m|e] s2];
    simpl in E2 |- *.
  2:{ exists (app [ev] t2), 1%nat; rewrite E2; unfold s1; simpl; rewrite <- app_assoc.
      split; [reflexivity|split; [|split]].
      - constructor; [exact I|apply items_warn_ok; exact F2].
      - change (search_calls (app [ev] t2) = map (fun i => (perPage, page + Z.of_nat i)) (seq 0 1)).
        rewrite search_calls_app, (search_calls_items t2 F2), app_nil_r; exact Hone.
      - right; lia. }
  set (more' := _ && _).
  assert (Hstep : forall s3 t3, st_trace s3 = app (st_trace s2) t3 ->
            Forall warn_is_fetch_warning t3 -> search_calls t3 = [] ->
            exists t k,
              st_trace (snd (search_pages W api regex config f (page + 1) more' m s3))
              = app (st_trace s) t
              /\ Forall warn_is_fetch_warning t
              /\ search_calls t = map (fun i => (perPage, page + Z.of_nat i)) (seq 0 k)
              /\ (k = O \/ page + Z.of_nat k - 1 <= 10)).
  { intros s3 t3 E3 F3 C3.
    destruct (IH (page + 1) more' m s3) as [t4 [k [E4 [F4 [C4 B4]]]]].
    exists (app [ev] (app t2 (app t3 t4))), (S k).
    rewrite E4, E3, E2; simpl; repeat rewrite <- app_assoc; repeat split.
    - constructor; [exact I|].
      repeat (apply Forall_app; split); auto; apply items_warn_ok; exact F2.
    - rewrite !search_calls_app, (search_calls_items t2 F2), C3, C4.
      simpl; rewrite Z.add_0_r; f_equal.
      rewrite <- seq_shift, map_map; apply map_ext; intros i; f_equal; lia.
    - right; destruct B4 as [->|B4]; lia. }
  destruct more'; simpl.
  - apply (Hstep _ [EDelay 1000]); simpl; auto; constructor; [exact I|constructor].
  - apply (Hstep _ []); [rewrite app_nil_r|..]; auto.
Qed.

End Pagination.

(** ** Searches that cannot fail *)

Lemma nt_ret {W A} (a : A) : never_throws (W := W) (ret a).
Proof. intros s; exact I. Qed.

Lemma nt_bind {W A B} (m : M W A) (k : A -> M W B) :
  never_throws m -> (forall a, never_throws (k a)) -> never_throws (bind m k).
Proof.
  intros Hm Hk s; unfold bind; specialize (Hm s).
  destruct (m s) as [[a|e] s1]; simpl in *; [apply Hk|contradiction].
Qed.

Lemma nt_try {W A} (m : M W A) h :
  (forall e, never_throws (h e)) -> never_throws (try_catch m h).
Proof.
  intros Hh s; unfold try_catch.
  destruct (m s) as [[a|e] s1]; simpl; [exact I|apply Hh].
Qed.

Lemma nt_emit {W} ev : never_throws (W := W) (emit ev).
Proof. intros s; exact I. Qed.

Lemma nt_call {W A} ev (f : W -> Res A * W) :
  (forall w, exists a w', f w = (Ok a, w')) -> never_throws (call ev f).
Proof.
  intros Hf s; unfold call; destruct (Hf (st_world s)) as [a [w' E]]; rewrite E; exact I.
Qed.

Section SearchTotal.
Variable W : Type.
Variable api : GitHubApi W.
Variable regex : RegexEngine.
Variable config : SearchReplaceConfig.
Hypothesis search_ok : forall q pp pg w, exists d w', search_code api q pp pg w = (Ok d, w').
Hypothesis globs_ok : forall pats pat p, excludePatterns config = Some pats -> In pat pats ->
  includes pat "*" = true -> exists b, regex_test regex (star_to_dot_star pat) p = Ok b.

Lemma some_excludes_nt pats p :
  (forall pat, In pat pats -> includes pat "*" = true ->
     exists b, regex_test regex (star_to_dot_star pat) p = Ok b) ->
  never_throws (some_excludes W regex pats p).
Proof.
  induction pats as [|pat rest IH]; intros H; simpl; [apply nt_ret|].
  apply nt_bind.
  - destruct (includes pat "*") eqn:E; [|apply nt_ret].
    destruct (H pat (or_introl eq_refl) E) as [b Hb].
    intros s; unfold lift_res; rewrite Hb; exact I.
  - intros [|]; [apply nt_ret|apply IH; intros pat' Hin Hs; apply H; [right; exact Hin|exact Hs]].
Qed.

Lemma shouldExcludePath_nt p : never_throws (shouldExcludePath W regex config p).
Proof.
  unfold shouldExcludePath; destruct (excludePatterns config) as [pats|] eqn:E;
    [|apply nt_ret].
  apply some_excludes_nt; intros pat Hin Hs; apply (globs_ok pats); auto.
Qed.

Lemma process_item_nt item acc : never_throws (process_item W api regex config item acc).
Proof.
  unfold process_item; cbv zeta.
  destruct (negb _); [apply nt_ret|].
  apply nt_bind; [apply shouldExcludePath_nt|intros []; [apply nt_ret|]].
  apply nt_try; intros e; apply nt_bind; [apply nt_emit|intros; apply nt_ret].
Qed.

Lemma process_items_nt its acc : never_throws (process_items W api regex config its acc).
Proof.
  revert acc; induction its as [|it rest IH]; intros acc; simpl; [apply nt_ret|].
  apply nt_bind; [apply process_item_nt|intros; apply IH].
Qed.

(** With answering search calls and compiling patterns, the pages never throw. *)
Lemma search_pages_nt fuel page more acc :
  never_throws (search_pages W api regex config fuel page more acc).
Proof.
  revert page more acc; induction fuel as [|f IH]; intros page more acc; simpl;
    [apply nt_ret|].
  destruct (more && (page <=? 10)); [|apply nt_ret].
  apply nt_bind; [apply nt_call; intros; apply search_ok|intros data].
  destruct (Nat.eqb _ 0); [apply nt_ret|].
  apply nt_bind; [apply process_items_nt|intros m; cbv zeta].
  apply nt_bind; [destruct (_ && _); [apply nt_emit|apply nt_ret]|intros; apply IH].
Qed.

End SearchTotal.

(** The search logs no error line: its handler is outside [search_pages]. *)
Lemma search_pages_not_error (W : Type) (api : GitHubApi W) (regex : RegexEngine)
  (config : SearchReplaceConfig) fuel page more acc :
  trace_ext W not_error (search_pages W api regex config fuel page more acc).
Proof.
  revert page more acc; induction fuel as [|f IH]; intros page more acc; simpl;
    frame_steps; auto; try exact I.
  eapply ext_weaken; [|apply process_items_ext].
  intros [| | | | | | | | | [] ?] H; simpl in *; auto.
Qed.


(** The page calls of the search and the warnings it logs. *)
Lemma search_calls_and_warnings (W : Type) (api : GitHubApi W)
  (regex : RegexEngine) (config : SearchReplaceConfig) (w : W) :
  (exists k, (k <= 10)%nat /\
     search_calls (st_trace (snd (run (searchAcrossOrganizations W api regex config) w)))
     = map (fun i => (perPage, Z.of_nat i)) (seq 1 k))
  /\ (forall msg,
        In (ELog LWarn msg) (st_trace (snd (run (searchAcrossOrganizations W api regex config) w)))
        -> String.prefix fetch_warning_prefix msg = true).
Proof.
  destruct (search_pages_calls W api regex config 10 1 true [] (mkSt w [] summary0))
    as [t [k [E [F [C B]]]]].
  assert (Hk : (k <= 10)%nat) by (destruct B as [->|B]; lia).
  assert (Hc : search_calls t = map (fun i => (perPage, Z.of_nat i)) (seq 1 k)).
  { rewrite C, <- seq_shift, map_map; apply map_ext; intros i; f_equal; lia. }
  unfold run, searchAcrossOrganizations, try_catch.
  destruct (search_pages W api regex config 10 1 true [] (mkSt w [] summary0))
    as [[m|e] s1]; simpl in E |- *.
  - rewrite E; split; [exists k; split; auto|].
    intros msg Hin; rewrite Forall_forall in F; apply (F _ Hin).
  - rewrite E; split.
    + exists k; split; auto; rewrite search_calls_app, Hc; simpl; apply app_nil_r.
    + intros msg Hin; apply in_app_or in Hin as [Hin|[Hin|[]]]; [|discriminate].
      rewrite Forall_forall in F; apply (F _ Hin).
Qed.

(** When the search calls answer and the exclusion patterns compile, the
    search returns normally and logs no error. *)
Lemma search_total_no_error (W : Type) (api : GitHubApi W)
  (regex : RegexEngine) (config : SearchReplaceConfig) (w : W) :
  (forall q pp pg w', exists d w'', search_code api q pp pg w' = (Ok d, w'')) ->
  (forall pats pat p, excludePatterns config = Some pats -> In pat pats ->
     includes pat "*" = true -> exists b, regex_test regex (star_to_dot_star pat) p = Ok b) ->
  (exists m, fst (run (searchAcrossOrganizations W api regex config) w) = Ok m)
  /\ (forall msg, ~ In (ELog LError msg)
                    (st_trace (snd (run (searchAcrossOrganizations W api regex config) w)))).
Proof.
  intros Hs Hg.
  pose proof (search_pages_nt W api regex config Hs Hg 10 1 true [] (mkSt w [] summary0)) as Hn.
  destruct (search_pages_not_error W api regex config 10 1 true [] (mkSt w [] summary0))
    as [t [E F]].
  unfold run, searchAcrossOrganizations, try_catch.
  destruct (search_pages W api regex config 10 1 true [] (mkSt w [] summary0))
    as [[m|e] s1]; simpl in Hn, E |- *; [|contradiction].
  split; [eauto|].
  rewrite E; simpl; intros msg Hin; rewrite Forall_forall in F; apply (F _ Hin).
Qed.

(** C5 (as amended): the search asks for pages 1, 2, ..., k of 100 results
    with k at most 10, and the only warnings it logs are per-file content
    fetch warnings: stopping at the cap is not reported.  Nor is it an
    error: when the search calls answer and the exclusion patterns compile,
    the search returns a match map and logs no error, whatever the number
    of hits. *)
Theorem search_pages_capped_without_warning (W : Type) (api : GitHubApi W)
  (regex : RegexEngine) (config : SearchReplaceConfig) (w : W) :
  (exists k, (k <= 10)%nat /\
     search_calls (st_trace (snd (run (searchAcrossOrganizations W api regex config) w)))
     = map (fun i => (perPage, Z.of_nat i)) (seq 1 k))
  /\ (forall msg,
        In (ELog LWarn msg) (st_trace (snd (run (searchAcrossOrganizations W api regex config) w)))
        -> String.prefix fetch_warning_prefix msg = true)
  /\ ((forall q pp pg w', exists d w'', search_code api q pp pg w' = (Ok d, w'')) ->
      (forall pats pat p, excludePatterns config = Some pats -> In pat pats ->
         includes pat "*" = true -> exists b, regex_test regex (star_to_dot_star pat) p = Ok b) ->
      (exists m, fst (run (searchAcrossOrganizations W api regex config) w) = Ok m)
      /\ (forall msg, ~ In (ELog LError msg)
                        (st_trace (snd (run (searchAcrossOrganizations W api regex config) w))))).
Proof.
  destruct (search_calls_and_warnings W api regex config w) as [A B].
  split; [exact A|split; [exact B|apply search_total_no_error]].
Qed.

(** ** Publishing failures *)

Lemma process_repository_count (W : Type) (api : GitHubApi W) (regex : RegexEngine)
  (config : SearchReplaceConfig) repo matches s :
  opt_truthy (dryRun config) = false ->
  let s' := snd (process_repository W api regex config repo matches s) in
  successfulPRs (st_summary s') + failedPRs (st_summary s')
  = successfulPRs (st_summary s) + failedPRs (st_summary s) + 1.
Proof.
  intros Hd; unfold process_repository, try_catch, bind, modify_summary; rewrite Hd.
  set (s1 := mkSt _ _ _).
  pose proof (createPullRequest_frame W api regex config repo matches s1) as Hf.
  destruct (createPullRequest W api regex config repo matches s1) as [[r|e] s2];
    simpl in Hf |- *; rewrite Hf; simpl; lia.
Qed.

(** C3 (as amended): when the contents update of a file is rejected (as
    for a file whose sha changed), [createPullRequest] logs
    "Failed to create PR for <repo>: <message>" and rethrows the update's
    error unchanged; when [createPullRequest] throws (for that or any other
    reason), the repository's iteration records the failure as the plain
    message "Failed to create PR for <repo>: <message>", counts it in
    [failedPRs], and does not throw; the loop then goes on, each repository
    adding one to [successfulPRs + failedPRs]. *)
Theorem publish_failure_recorded_and_loop_continues (W : Type) (api : GitHubApi W)
  (regex : RegexEngine) (config : SearchReplaceConfig) :
  opt_truthy (dryRun config) = false ->
  (forall repo matches s e s2,
     createPullRequest W api regex config repo matches
       (mkSt (st_world s) (st_trace s)
          (add_filesChanged (Z.of_nat (List.length matches)) (st_summary s)))
     = (Throw e, s2) ->
     process_repository W api regex config repo matches s
     = (Ok tt,
        mkSt (st_world s2)
          (app (st_trace s2)
             [ELog LError ("Failed to create PR for " ++ repo ++ ": " ++ err_message e)])
          (push_error ("Failed to create PR for " ++ repo ++ ": " ++ err_message e)
             (incr_failedPRs
                (add_filesChanged (Z.of_nat (List.length matches)) (st_summary s))))))
  /\ (forall results s,
        fst (process_repositories W api regex config results s) = Ok tt
        /\ successfulPRs (st_summary (snd (process_repositories W api regex config results s)))
           + failedPRs (st_summary (snd (process_repositories W api regex config results s)))
           = successfulPRs (st_summary s) + failedPRs (st_summary s)
             + Z.of_nat (List.length results))
  /\ (forall R pre m rest s data w1 base w2 w3 s1 nc e w',
        let o := fst (owner_repo R) in
        let rp := snd (owner_repo R) in
        let dflt := or_default (rd_default_branch data) "main" in
        let branch := show_opt (branchPrefix config) ++ "-"
                      ++ strip_colon_dash (slice0 19 (date_now_iso api (st_world s))) in
        let message := "Replace " ++ searchString config ++ " with "
                       ++ replacementString config in
        repos_get api o rp (st_world s) = (Ok data, w1) ->
        git_getRef api o rp ("heads/" ++ dflt) w1 = (Ok base, w2) ->
        git_createRef api o rp ("refs/heads/" ++ branch) base w2 = (Ok tt, w3) ->
        commit_files W api regex config o rp branch pre
          (mkSt w3
             (app (st_trace s)
                [EReposGet o rp; EGetRef o rp ("heads/" ++ dflt);
                 ECreateRef o rp ("refs/heads/" ++ branch) base])
             (st_summary s))
        = (Ok tt, s1) ->
        regex_replace_all regex (searchString config) (content m) (replacementString config)
          = Ok nc ->
        repos_createOrUpdateFileContents api o rp (path m) message nc (sha m) branch
          (st_world s1) = (Throw e, w') ->
        createPullRequest W api regex config R (app pre (m :: rest)) s
        = (Throw e,
           mkSt w'
             (app (st_trace s1)
                [ECreateOrUpdateFile o rp (path m) message nc (sha m) branch;
                 ELog LError ("Failed to create PR for " ++ R ++ ": " ++ err_message e)])
             (st_summary s1))).
Proof.
  intros Hd; split; [|split].
  - intros repo matches s e s2 Hc; apply process_repository_failure; assumption.
  - induction results as [|[repo matches] rest IH]; intros s; simpl.
    + split; [reflexivity|lia].
    + unfold bind.
      pose proof (process_repository_ok W api regex config repo matches s) as Hok.
      pose proof (process_repository_count W api regex config repo matches s Hd) as Hcnt.
      destruct (process_repository W api regex config repo matches s) as [r s1];
        simpl in Hok, Hcnt; subst r.
      destruct (IH s1) as [IH1 IH2]; split; [exact IH1|].
      rewrite IH2, Hcnt; lia.
  - intros R pre m rest s data w1 base w2 w3 s1 nc e w' o rp dflt branch message
      Hg Hr Hc Hp Hn Hu.
    rewrite (createPullRequest_rethrows_commit_error W api regex config R (app pre (m :: rest))
               s data w1 base w2 w3 e
               (mkSt w' (app (st_trace s1)
                           [ECreateOrUpdateFile o rp (path m) message nc (sha m) branch])
                  (st_summary s1)) Hg Hr Hc).
    + cbn [st_world st_trace st_summary]; rewrite <- app_assoc; reflexivity.
    + apply commit_files_update_failure; assumption.
Qed.

(** ** Concrete runs *)

(** C1 (code_bug): the search string is used as a regular expression.  With
    "old.host", the stored [matchCount] is 2 on a body with one literal
    occurrence, and the committed body also rewrites [oldXhost]. *)
Theorem search_string_used_as_pattern :
  fst (run (searchAcrossOrganizations unit host_api fragment_regex host_config) tt)
    = Ok [("acme/site", [host_match])]
  /\ matchCount host_match = 2
  /\ literal_count "old.host" "old.host oldXhost" = 1%nat
  /\ In (ECreateOrUpdateFile "acme" "site" "config.json" "Replace old.host with new.host"
          "new.host new.host" "s1" host_branch)
        (st_trace (snd (run (createPullRequest unit host_api fragment_regex host_config
                               "acme/site" [host_match]) tt)))
  /\ literal_replace_all "old.host" "new.host" "old.host oldXhost" = "new.host oldXhost".
Proof.
  split; [vm_compute; reflexivity|].
  split; [reflexivity|].
  split; [vm_compute; reflexivity|].
  split; [|vm_compute; reflexivity].
  vm_compute; repeat (first [left; reflexivity | right]).
Qed.

(** C4 (code_bug): a file that contains the search string literally is
    stored with [matchCount = 0] when the string starts with [^]. *)
Theorem match_count_zero_for_anchored_string :
  includes "lodash@^4.17.21" "^4.17.21" = true
  /\ fst (run (searchAcrossOrganizations unit caret_api fragment_regex caret_config) tt)
     = Ok [("acme/site",
            [mkFileMatch "deps.txt" "lodash@^4.17.21" "s1" 0 "acme/site"
               "https://github.com/acme/site/blob/main/deps.txt"])].
Proof. split; vm_compute; reflexivity. Qed.


(** C3 counterexample: the stale sha surfaces as the server's [HttpError],
    rethrown unchanged, and the run's summary is the same as for a failed
    base-branch lookup with the same message. *)
Lemma stale_sha_not_a_conflict_error :
  fst (run (createPullRequest unit stale_api fragment_regex host_config "acme/site" [site_match]) tt)
    = Throw (conflict_error "config.json")
  /\ err_name (conflict_error "config.json") = "HttpError"
  /\ fst (run (executeSearchReplace unit stale_api fragment_regex host_config) tt)
     = fst (run (executeSearchReplace unit ref_failure_api fragment_regex host_config) tt).
Proof. split; [|split]; vm_compute; reflexivity. Qed.

(** C5 counterexample: with 2000 hits the search stops after page 10 and
    returns normally, with no warning in its trace. *)
Lemma page_cap_truncates_silently :
  fst (run (searchAcrossOrganizations unit full_api fragment_regex host_config) tt) = Ok []
  /\ search_calls (st_trace (snd (run (searchAcrossOrganizations unit full_api fragment_regex
                                         host_config) tt)))
     = map (fun i => (100, Z.of_nat i)) (seq 1 10)
  /\ (forall msg, ~ In (ELog LWarn msg)
        (st_trace (snd (run (searchAcrossOrganizations unit full_api fragment_regex
                              host_config) tt))))
  /\ List.length (items (full_pages 11)) = 100%nat.
Proof.
  split; [vm_compute; reflexivity|].
  split; [vm_compute; reflexivity|].
  split; [|reflexivity].
  intros msg Hin; vm_compute in Hin;
    repeat (destruct Hin as [Hin|Hin]; [discriminate|]); exact Hin.
Qed.

(** ** Instances of the general statements *)

Lemma same_strings_witness :
  searchString (demo_config "x" "x" false) = replacementString (demo_config "x" "x" false)
  /\ validateConfig (demo_config "x" "x" false) <> []
  /\ run (executeSearchReplace unit host_api fragment_regex (demo_config "x" "x" false)) tt
     = (Throw (Error ("Configuration errors: "
                      ++ join ", " (validateConfig (demo_config "x" "x" false)))),
        mkSt tt [] summary0).
Proof.
  split; [reflexivity|].
  apply (same_strings_rejected_without_effects unit host_api fragment_regex
           (demo_config "x" "x" false) tt).
  reflexivity.
Defined.

Lemma empty_replacement_witness :
  replacementString (demo_config "old.host" "" false) = ""
  /\ In "Replacement string is required" (validateConfig (demo_config "old.host" "" false))
  /\ run (executeSearchReplace unit host_api fragment_regex (demo_config "old.host" "" false)) tt
     = (Throw (Error ("Configuration errors: "
                      ++ join ", " (validateConfig (demo_config "old.host" "" false)))),
        mkSt tt [] summary0).
Proof.
  split; [reflexivity|].
  apply (empty_replacement_rejected unit host_api fragment_regex
           (demo_config "old.host" "" false) tt).
  reflexivity.
Defined.

Lemma dry_run_witness :
  dryRun (demo_config "old.host" "new.host" true) = Some true
  /\ Forall (fun ev => publish_event ev = false)
       (st_trace (snd (run (executeSearchReplace unit host_api fragment_regex
                              (demo_config "old.host" "new.host" true)) tt))).
Proof.
  split; [reflexivity|].
  apply (dry_run_publishes_nothing unit host_api fragment_regex
           (demo_config "old.host" "new.host" true) tt).
  reflexivity.
Defined.

Lemma publish_failure_witness :
  opt_truthy (dryRun host_config) = false
  /\ fst (process_repositories unit stale_api fragment_regex host_config
            [("acme/site", [site_match])] (mkSt tt [] summary0)) = Ok tt
  /\ createPullRequest unit stale_api fragment_regex host_config "acme/site" [site_match]
       (mkSt tt [] summary0)
     = (Throw (conflict_error "config.json"),
        mkSt tt
          [EReposGet "acme" "site"; EGetRef "acme" "site" "heads/main";
           ECreateRef "acme" "site" ("refs/heads/" ++ host_branch) "base";
           ECreateOrUpdateFile "acme" "site" "config.json" "Replace old.host with new.host"
             "url=new.host" "s1" host_branch;
           ELog LError ("Failed to create PR for acme/site: "
                        ++ err_message (conflict_error "config.json"))]
          summary0).
Proof.
  destruct (publish_failure_recorded_and_loop_continues unit stale_api fragment_regex
              host_config eq_refl) as [_ [Hl Hp]].
  split; [reflexivity|split; [apply Hl|]].
  change [site_match] with (app [] [site_match]).
  rewrite (Hp "acme/site" [] site_match [] (mkSt tt [] summary0)
             (mkRepoData "site" "acme/site" (Some "main") (Some false) None (Some false) None)
             tt "base" tt tt
             (mkSt tt [EReposGet "acme" "site"; EGetRef "acme" "site" "heads/main";
                       ECreateRef "acme" "site" ("refs/heads/" ++ host_branch) "base"]
                summary0)
             "url=new.host" (conflict_error "config.json") tt);
    vm_compute; reflexivity.
Defined.


Lemma search_pages_capped_witness :
  (exists k, (k <= 10)%nat /\
     search_calls (st_trace (snd (run (searchAcrossOrganizations unit full_api fragment_regex
                                         host_config) tt)))
     = map (fun i => (perPage, Z.of_nat i)) (seq 1 k))
  /\ (exists m, fst (run (searchAcrossOrganizations unit full_api fragment_regex host_config) tt)
                = Ok m).
Proof.
  destruct (search_pages_capped_without_warning unit full_api fragment_regex host_config tt)
    as [Hk [_ Hn]].
  split; [exact Hk|].
  apply Hn.
  - intros q pp pg w'; do 2 eexists; reflexivity.
  - intros pats pat p E Hin Hs; injection E as <-.
    destruct Hin as [<-|[]]; vm_compute in Hs; discriminate.
Defined.

(** * Further properties of the code *)

(** ** Path exclusion *)

Lemma some_excludes_star_free (W : Type) (regex : RegexEngine) patterns p s :
  Forall (fun pat => includes pat "*" = false) patterns ->
  some_excludes W regex patterns p s = (Ok (existsb (includes p) patterns), s).
Proof.
  revert s; induction patterns as [|pat rest IH]; intros s H; [reflexivity|].
  inversion H as [|? ? Hpat Hrest]; subst; simpl.
  unfold bind, ret; rewrite Hpat.
  destruct (includes p pat); simpl; [reflexivity|apply IH; exact Hrest].
Qed.

Lemma some_excludes_app (W : Type) (regex : RegexEngine) l1 l2 p s :
  Forall (fun pat => includes pat "*" = false) l1 ->
  some_excludes W regex (l1 ++ l2) p s
  = if existsb (includes p) l1 then (Ok true, s) else some_excludes W regex l2 p s.
Proof.
  revert s; induction l1 as [|pat rest IH]; intros s H; [reflexivity|].
  inversion H as [|? ? Hpat Hrest]; subst; simpl.
  unfold bind, ret; rewrite Hpat.
  destruct (includes p pat); simpl; [reflexivity|apply IH; exact Hrest].
Qed.

(** X1: exclude patterns without [*] make [shouldExcludePath] a plain
    substring test, anywhere in the path, with no regular expression
    built and no effect. *)
Theorem shouldExcludePath_star_free (W : Type) (regex : RegexEngine)
  (config : SearchReplaceConfig) patterns p s :
  excludePatterns config = Some patterns ->
  Forall (fun pat => includes pat "*" = false) patterns ->
  shouldExcludePath W regex config p s = (Ok (existsb (includes p) patterns), s).
Proof.
  intros He Hf; unfold shouldExcludePath; rewrite He.
  apply some_excludes_star_free; exact Hf.
Qed.

Lemma default_excludePatterns_split :
  default_excludePatterns = app default_plain_patterns ["*.log"; "*.lock"; "package-lock.json"; "yarn.lock"].
Proof. reflexivity. Qed.

(** X2: with the default exclude patterns, a path containing [.git/],
    [node_modules/], [dist/], [build/], [.next/] or [coverage/] anywhere
    (also [rebuild/] or [mydist/]) is excluded, whatever the engine. *)
Theorem default_plain_patterns_exclude (W : Type) (regex : RegexEngine)
  (config : SearchReplaceConfig) pat p s :
  excludePatterns config = Some default_excludePatterns ->
  In pat default_plain_patterns -> includes p pat = true ->
  shouldExcludePath W regex config p s = (Ok true, s).
Proof.
  intros He Hin Hi; unfold shouldExcludePath; rewrite He, default_excludePatterns_split.
  rewrite some_excludes_app by (repeat constructor).
  replace (existsb (includes p) default_plain_patterns) with true; [reflexivity|].
  symmetry; apply existsb_exists; exists pat; auto.
Qed.

Lemma first_count_zero i f l :
  f O = Some l -> exists l', first_count i f = Some l'.
Proof.
  intros H; induction i as [|j IH]; simpl.
  - rewrite H; eauto.
  - destruct (f (S j)); eauto.
Qed.

Lemma substring_full r : String.substring 0 (String.length r) r = r.
Proof. induction r as [|c r IH]; simpl; [reflexivity|rewrite IH; reflexivity]. Qed.

Lemma substring_app a r :
  String.substring (String.length a) (String.length (a ++ r) - String.length a) (a ++ r) = r.
Proof.
  induction a as [|c a IH]; simpl.
  - rewrite Nat.sub_0_r; apply substring_full.
  - exact IH.
Qed.

Lemma length_app_ge a r : (String.length a <= String.length (a ++ r))%nat.
Proof. induction a; simpl; lia. Qed.

Lemma gexec_from_found fuel atoms s i j l :
  (i <= j)%nat -> (j <= String.length s)%nat -> (j - i < fuel)%nat ->
  gmatch atoms (Nat.eqb j 0) (String.substring j (String.length s - j) s) = Some l ->
  exists r, gexec_from fuel atoms s i = Some r.
Proof.
  revert i; induction fuel as [|f IH]; intros i Hij Hjs Hf Hm; [lia|].
  simpl.
  replace (Nat.ltb (String.length s) i) with false by (symmetry; apply Nat.ltb_ge; lia).
  destruct (gmatch atoms (Nat.eqb i 0) (String.substring i (String.length s - i) s)) eqn:E;
    [eauto|].
  destruct (Nat.eq_dec i j) as [->|Hne]; [congruence|].
  apply (IH (S i)); auto; lia.
Qed.

Lemma glob_test_found pattern atoms s j l :
  compile_glob pattern = Some atoms -> (j <= String.length s)%nat ->
  gmatch atoms (Nat.eqb j 0) (String.substring j (String.length s - j) s) = Some l ->
  regex_test glob_regex pattern s = Ok true.
Proof.
  intros Hc Hj Hm; unfold regex_test, glob_regex; rewrite Hc.
  destruct (gexec_from_found (S (String.length s)) atoms s 0 j l) as [[j' l'] E];
    try lia; auto.
  change (gexec_global (S (S (String.length s))) atoms s 0)
    with (match gexec_from (S (String.length s)) atoms s 0 with
          | None => []
          | Some (j, l) =>
              (j, l) :: gexec_global (S (String.length s)) atoms s
                          (if Nat.eqb l 0 then S j else j + l)
          end).
  rewrite E; reflexivity.
Qed.

Lemma gmatch_star_zero a atoms at_start rest l :
  gmatch atoms at_start rest = Some l ->
  exists l', gmatch (GStar a :: atoms) at_start rest = Some l'.
Proof.
  intros H; simpl.
  apply first_count_zero with (l := l).
  rewrite Nat.sub_0_r, substring_full, andb_true_r, H; reflexivity.
Qed.

(** [.*.] followed by a word matches every text with a character (not a
    line terminator) right before an occurrence of the word. *)
Lemma dot_star_dot_word word a c b :
  line_terminator c = false ->
  compile_glob (".*." ++ word)
  = Some (GStar AAny :: GOne AAny :: map (fun ch => GOne (ALit ch)) (list_ascii_of_string word)) ->
  gmatch (map (fun ch => GOne (ALit ch)) (list_ascii_of_string word)) false (word ++ b)
    = Some (String.length word) ->
  regex_test glob_regex (".*." ++ word) (a ++ String c (word ++ b)) = Ok true.
Proof.
  intros Hc Hcomp Hw.
  destruct (gmatch_star_zero AAny
              (GOne AAny :: map (fun ch => GOne (ALit ch)) (list_ascii_of_string word))
              (Nat.eqb (String.length a) 0) (String c (word ++ b)) (S (String.length word)))
    as [l' E].
  - simpl; rewrite Hc; simpl; rewrite Hw; reflexivity.
  - apply (glob_test_found _ _ _ (String.length a) l' Hcomp).
    + apply length_app_ge.
    + rewrite substring_app; exact E.
Qed.

(** X3: with the default exclude patterns and a JavaScript engine, [*.log]
    and [*.lock] become the unanchored [.*.log] and [.*.lock], whose [.]
    is any character: every path with a character (not a line terminator)
    right before [log] or [lock] is excluded, such as [src/catalog.ts],
    [blog/post.md] or [src/clock.js]. *)
Theorem default_globs_exclude_log_lock_substrings (W : Type)
  (config : SearchReplaceConfig) a c b p s :
  excludePatterns config = Some default_excludePatterns ->
  line_terminator c = false ->
  p = a ++ String c ("log" ++ b) \/ p = a ++ String c ("lock" ++ b) ->
  shouldExcludePath W glob_regex config p s = (Ok true, s).
Proof.
  intros He Hc Hp; unfold shouldExcludePath; rewrite He, default_excludePatterns_split.
  rewrite some_excludes_app by (repeat constructor).
  destruct (existsb (includes p) default_plain_patterns); [reflexivity|].
  assert (Hlog : p = a ++ String c ("log" ++ b) ->
                 regex_test glob_regex ".*.log" p = Ok true)
    by (intros ->; apply (dot_star_dot_word "log"); auto).
  assert (Hlock : p = a ++ String c ("lock" ++ b) ->
                  regex_test glob_regex ".*.lock" p = Ok true)
    by (intros ->; apply (dot_star_dot_word "lock"); auto).
  simpl some_excludes; unfold bind, lift_res, ret; simpl star_to_dot_star.
  destruct Hp as [Hp|Hp].
  - rewrite (Hlog Hp); reflexivity.
  - rewrite (Hlock Hp).
    destruct (regex_test glob_regex ".*.log" p) as [[|]|e] eqn:E; try reflexivity.
    unfold regex_test, glob_regex in E; simpl in E; discriminate.
Qed.

(** ** Repository filter *)

(** X4: [repo.visibility || repo.private ? "private" : "public"] parses as
    [(repo.visibility || repo.private) ? ...]: a repository whose search
    result carries any non-empty visibility, "public" included, counts as
    private, so a non-empty [repositoryTypes] without "private" skips it. *)
Theorem visibility_field_counts_as_private (config : SearchReplaceConfig) repo types v :
  repositoryTypes config = Some types -> types <> [] -> ~ In "private" types ->
  sr_visibility repo = Some v -> v <> "" ->
  shouldProcessRepository config repo = false.
Proof.
  intros Ht Hne Hnp Hv Hv'; unfold shouldProcessRepository.
  destruct (negb (opt_truthy (includeArchived config)) && opt_truthy (archived repo));
    [reflexivity|].
  rewrite Ht; destruct types as [|t0 ts]; [congruence|]; simpl Nat.ltb; cbv iota.
  rewrite Hv; unfold opt_str_truthy, str_truthy.
  replace (String.eqb v "") with false by (symmetry; apply String.eqb_neq; exact Hv').
  cbn [negb orb]; apply Bool.not_true_iff_false; intros H.
  apply existsb_exists in H as [x [Hx Heq]]; apply String.eqb_eq in Heq; subst x.
  exact (Hnp Hx).
Qed.

(** X5: the filter only ever classifies a repository as "public" or
    "private"; a non-empty [repositoryTypes] holding neither (such as
    ["internal"]) skips every repository. *)
Theorem repositoryTypes_without_public_private_skip_all (config : SearchReplaceConfig) repo types :
  repositoryTypes config = Some types -> types <> [] ->
  ~ In "public" types -> ~ In "private" types ->
  shouldProcessRepository config repo = false.
Proof.
  intros Ht Hne Hpu Hpr; unfold shouldProcessRepository.
  destruct (negb (opt_truthy (includeArchived config)) && opt_truthy (archived repo));
    [reflexivity|].
  rewrite Ht; destruct types as [|t0 ts]; [congruence|]; simpl Nat.ltb; cbv iota.
  apply Bool.not_true_iff_false; intros H.
  apply existsb_exists in H as [x [Hx Heq]]; apply String.eqb_eq in Heq; subst x.
  destruct (_ || _); auto.
Qed.

(** ** Failures inside the search *)

(** X6: when fetching a hit's content fails, the search goes on with the
    match map unchanged, after a warning whose message carries both
    prefixes: "Could not fetch content for <repo>/<path>: Failed to get
    file content: <message>". *)
Theorem content_fetch_failure_becomes_warning (W : Type) (api : GitHubApi W)
  (regex : RegexEngine) (config : SearchReplaceConfig) item acc s e w' :
  shouldProcessRepository config (item_repository item) = true ->
  shouldExcludePath W regex config (item_path item) s = (Ok false, s) ->
  repos_getContent api (owner_login (item_repository item)) (sr_name (item_repository item))
    (item_path item) (or_default (default_branch (item_repository item)) "main") (st_world s)
  = (Throw e, w') ->
  process_item W api regex config item acc s
  = (Ok acc,
     mkSt w'
       (app (st_trace s)
          [EGetContent (owner_login (item_repository item)) (sr_name (item_repository item))
             (item_path item) (or_default (default_branch (item_repository item)) "main")
             (Throw e);
           ELog LWarn ("Could not fetch content for " ++ full_name (item_repository item) ++ "/"
                       ++ item_path item ++ ": Failed to get file content: " ++ err_message e)])
       (st_summary s)).
Proof.
  intros Hp Hx Hg; unfold process_item; rewrite Hp; cbn [negb].
  unfold bind at 1; rewrite Hx.
  unfold try_catch, bind at 1, getFileContent, try_catch, bind, getContent_call.
  rewrite Hg; simpl.
  unfold warn, emit, ret; simpl; rewrite <- app_assoc; reflexivity.
Qed.

(** X7: a search string that is not a valid pattern (the constructor
    [new RegExp] throws, e.g. [SyntaxError]) makes every fetched file that
    contains it drop out of the match map, reported as a warning that says
    the content could not be fetched. *)
Theorem invalid_pattern_reported_as_fetch_failure (W : Type) (api : GitHubApi W)
  (regex : RegexEngine) (config : SearchReplaceConfig) item acc s w' body h e :
  shouldProcessRepository config (item_repository item) = true ->
  shouldExcludePath W regex config (item_path item) s = (Ok false, s) ->
  repos_getContent api (owner_login (item_repository item)) (sr_name (item_repository item))
    (item_path item) (or_default (default_branch (item_repository item)) "main") (st_world s)
  = (Ok (CObj "file" body h), w') ->
  includes body (searchString config) = true ->
  regex (searchString config) body = Throw e ->
  process_item W api regex config item acc s
  = (Ok acc,
     mkSt w'
       (app (st_trace s)
          [EGetContent (owner_login (item_repository item)) (sr_name (item_repository item))
             (item_path item) (or_default (default_branch (item_repository item)) "main")
             (Ok (CObj "file" body h));
           ELog LWarn ("Could not fetch content for " ++ full_name (item_repository item) ++ "/"
                       ++ item_path item ++ ": " ++ err_message e)])
       (st_summary s)).
Proof.
  intros Hp Hx Hg Hi Hr; unfold process_item; rewrite Hp; cbn [negb].
  unfold bind at 1; rewrite Hx.
  unfold try_catch, bind at 1, getFileContent, try_catch, bind, getContent_call.
  rewrite Hg; simpl.
  rewrite Hi; unfold lift_res, regex_match_count; rewrite Hr.
  unfold warn, emit, ret; simpl; rewrite <- app_assoc; reflexivity.
Qed.

(** ** The match map *)

Lemma map_push_keys k v m k0 :
  In k0 (map fst (map_push k v m)) <-> In k0 (map fst m) \/ k0 = k.
Proof.
  induction m as [|[k' vs] rest IH]; simpl.
  - split; [intros [H|[]]; auto|intros [[]|H]; auto].
  - destruct (String.eqb k k') eqn:E; simpl.
    + apply String.eqb_eq in E; subst k'; split; [tauto|intros [[H|H]|H]; auto].
    + rewrite IH; tauto.
Qed.

Lemma map_push_wf k v m :
  match_map_wf m -> repository v = k -> match_map_wf (map_push k v m).
Proof.
  unfold match_map_wf; intros [Hnd Hf] Hv; revert Hnd Hf.
  induction m as [|[k' vs] rest IH]; intros Hnd Hf; simpl.
  - split; [repeat constructor; auto|].
    constructor; [|constructor]; simpl; split; [discriminate|constructor; auto].
  - inversion_clear Hnd as [|? ? Hk' Hnd'].
    inversion_clear Hf as [|? ? [Hne Hall] Hf']; simpl in Hne, Hall.
    destruct (String.eqb k k') eqn:E.
    + apply String.eqb_eq in E; subst k'.
      split; [constructor; auto|].
      constructor; auto; simpl; split.
      * destruct vs; [congruence|discriminate].
      * apply Forall_app; auto.
    + apply String.eqb_neq in E.
      destruct (IH Hnd' Hf') as [Hnd2 Hf2].
      split.
      * simpl; constructor; auto.
        rewrite map_push_keys; intros [H|H]; [exact (Hk' H)|congruence].
      * constructor; auto.
Qed.

Section MapInvariant.
Variable W : Type.
Variable api : GitHubApi W.
Variable regex : RegexEngine.
Variable config : SearchReplaceConfig.
Variable Q : MatchMap -> Prop.
Hypothesis HQ : forall k v m, Q m -> repository v = k -> Q (map_push k v m).

Lemma process_item_Q item acc s :
  Q acc ->
  match process_item W api regex config item acc s with
  | (Ok acc', _) => Q acc'
  | (Throw _, _) => True
  end.
Proof.
  intros H; unfold process_item; cbv zeta.
  destruct (shouldProcessRepository config (item_repository item)); simpl; [|exact H].
  unfold bind at 1.
  destruct (shouldExcludePath W regex config (item_path item) s) as [[ex|e] s1]; [|exact I].
  destruct ex; [exact H|].
  unfold try_catch, bind at 1.
  destruct (getFileContent W api _ _ _ _ s1) as [[fc|e] s2].
  - destruct fc as [[body h]|]; [|exact H].
    destruct (includes body (searchString config)); [|exact H].
    unfold bind, lift_res, regex_match_count.
    destruct (regex (searchString config) body); simpl; [|exact H].
    apply HQ; auto.
  - exact H.
Qed.

Lemma process_items_Q its acc s :
  Q acc ->
  match process_items W api regex config its acc s with
  | (Ok acc', _) => Q acc'
  | (Throw _, _) => True
  end.
Proof.
  revert acc s; induction its as [|item rest IH]; intros acc s H; simpl; [exact H|].
  unfold bind at 1.
  pose proof (process_item_Q item acc s H) as Hi.
  destruct (process_item W api regex config item acc s) as [[acc1|e] s1]; simpl;
    [apply IH; exact Hi|exact I].
Qed.

Lemma search_pages_Q fuel page more acc s :
  Q acc ->
  match search_pages W api regex config fuel page more acc s with
  | (Ok acc', _) => Q acc'
  | (Throw _, _) => True
  end.
Proof.
  revert page more acc s; induction fuel as [|f IH]; intros page more acc s H; simpl;
    [exact H|].
  destruct (more && (page <=? 10)); [|exact H].
  unfold bind at 1, call.
  destruct (search_code api (searchQuery config) perPage page (st_world s)) as [[data|e] w1];
    simpl; [|exact I].
  destruct (Nat.eqb (List.length (items data)) 0); [exact H|].
  unfold bind at 1.
  match goal with |- context [process_items W api regex config (items data) acc ?s1] =>
    pose proof (process_items_Q (items data) acc s1 H) as Hp;
    destruct (process_items W api regex config (items data) acc s1) as [[m|e] s2]
  end; [|exact I].
  unfold bind at 1.
  destruct (_ && _); simpl; apply IH; exact Hp.
Qed.

Lemma search_Q s m :
  Q [] -> fst (searchAcrossOrganizations W api regex config s) = Ok m -> Q m.
Proof.
  intros H0; unfold searchAcrossOrganizations, try_catch.
  pose proof (search_pages_Q 10 1 true [] s H0) as Hp.
  destruct (search_pages W api regex config 10 1 true [] s) as [[m'|e] s'].
  - simpl; intros E; inversion E; subst; exact Hp.
  - unfold bind, error, emit, throw; simpl; discriminate.
Qed.

End MapInvariant.

(** X8: a match map returned by the search has one entry per repository
    (no key twice), no entry with an empty file list, and every file of an
    entry carries that entry's repository name. *)
Theorem search_match_map_well_formed (W : Type) (api : GitHubApi W) (regex : RegexEngine)
  (config : SearchReplaceConfig) s m :
  fst (searchAcrossOrganizations W api regex config s) = Ok m -> match_map_wf m.
Proof.
  apply search_Q; [intros; apply map_push_wf; auto|].
  split; constructor.
Qed.

(** ** Publishing *)

(** X9: when the repository lookup fails, [getRepositoryInfo] logs and
    returns [null], and [createPullRequest] throws
    [Error("Could not get repository information for <repo>")]: the
    original message only reaches the log, and no branch, commit or PR call
    is made. *)
Theorem repo_lookup_failure_stops_publish (W : Type) (api : GitHubApi W)
  (regex : RegexEngine) (config : SearchReplaceConfig) R matches s e w' :
  repos_get api (fst (owner_repo R)) (snd (owner_repo R)) (st_world s) = (Throw e, w') ->
  createPullRequest W api regex config R matches s
  = (Throw (Error ("Could not get repository information for " ++ R)),
     mkSt w'
       (app (st_trace s)
          [EReposGet (fst (owner_repo R)) (snd (owner_repo R));
           ELog LError ("Failed to get repository info for " ++ R ++ ": " ++ err_message e);
           ELog LError ("Failed to create PR for " ++ R
                        ++ ": Could not get repository information for " ++ R)])
       (st_summary s)).
Proof.
  intros Hg; unfold createPullRequest, bind at 1, now_iso; cbv zeta.
  destruct (owner_repo R) as [o rp] eqn:Eo; simpl in Hg.
  unfold try_catch at 1, bind at 1, getRepositoryInfo; rewrite Eo.
  unfold try_catch, bind, call; rewrite Hg; simpl.
  unfold error, emit, throw, ret; simpl; rewrite <- !app_assoc; reflexivity.
Qed.

Lemma commit_targets_app t1 t2 :
  commit_targets (app t1 t2) = app (commit_targets t1) (commit_targets t2).
Proof. unfold commit_targets; apply flat_map_app. Qed.

Lemma commit_targets_none t : Forall no_commit t -> commit_targets t = [].
Proof.
  induction t as [|ev t IH]; intros H; [reflexivity|].
  inversion H as [|? ? H1 H2]; subst.
  change (commit_targets (ev :: t)) with (commit_targets (app [ev] t)).
  rewrite commit_targets_app, H1, IH; auto.
Qed.

Lemma getRepositoryInfo_no_commit (W : Type) (api : GitHubApi W) R :
  trace_ext W no_commit (getRepositoryInfo W api R).
Proof. unfold getRepositoryInfo; frame_steps; reflexivity. Qed.

Lemma add_labels_no_commit (W : Type) (api : GitHubApi W) config o rp R pr :
  trace_ext W no_commit (add_labels_step W api config o rp R pr).
Proof. unfold add_labels_step; frame_steps; reflexivity. Qed.

Lemma commit_files_ok (W : Type) (api : GitHubApi W) (regex : RegexEngine)
  (config : SearchReplaceConfig) o rp br matches s s' :
  commit_files W api regex config o rp br matches s = (Ok tt, s') ->
  exists t, st_trace s' = app (st_trace s) t
            /\ commit_targets t = map (fun m => (path m, sha m, br)) matches.
Proof.
  revert s; induction matches as [|m rest IH]; intros s H; simpl in H.
  - inversion H; subst; exists []; rewrite app_nil_r; auto.
  - unfold bind at 1, lift_res in H.
    destruct (regex_replace_all regex (searchString config) (content m)
                (replacementString config)) as [nc|e]; [|discriminate].
    unfold bind at 1, call in H.
    destruct (repos_createOrUpdateFileContents api _ _ _ _ _ _ _ _) as [[[]|e] w1] in H;
      [|discriminate].
    destruct (IH _ H) as [t [E1 E2]]; simpl in E1.
    eexists; split; [rewrite E1, <- app_assoc; reflexivity|].
    simpl; rewrite E2; reflexivity.
Qed.

(** X10: a successful [createPullRequest] reports the repository and the
    number of matches as [filesChanged], and its effects create the branch
    [refs/heads/<branchName>], update each matched file once, in order, at
    the path and blob sha the search recorded, on that branch, and open a
    pull request from that branch. *)
Theorem createPullRequest_commits_each_match (W : Type) (api : GitHubApi W)
  (regex : RegexEngine) (config : SearchReplaceConfig) R matches s r s' :
  createPullRequest W api regex config R matches s = (Ok r, s') ->
  pr_repository r = R /\ filesChanged r = Z.of_nat (List.length matches) /\
  exists t, st_trace s' = app (st_trace s) t /\
    commit_targets t = map (fun m => (path m, sha m, branchName r)) matches /\
    (exists base, In (ECreateRef (fst (owner_repo R)) (snd (owner_repo R))
                        ("refs/heads/" ++ branchName r) base) t) /\
    (exists title base body, In (EPullsCreate (fst (owner_repo R)) (snd (owner_repo R))
                                   title (branchName r) base body) t).
Proof.
  intros H; unfold createPullRequest, bind at 1, now_iso in H; cbv zeta in H.
  destruct (owner_repo R) as [o rp] eqn:Eo; simpl.
  unfold try_catch at 1, bind at 1 in H.
  destruct (getRepositoryInfo_no_commit W api R s) as [t1 [E1 F1]].
  destruct (getRepositoryInfo W api R s) as [[ri|e] s1] in H, E1;
    [|unfold bind, error, emit, throw in H; simpl in H; discriminate].
  destruct ri as [ri|]; [|unfold throw, bind, error, emit in H; simpl in H; discriminate].
  unfold bind at 1, call at 1 in H.
  destruct (git_getRef api o rp ("heads/" ++ defaultBranch ri) (st_world s1))
    as [[base|e] w2] in H; [|unfold bind, error, emit, throw in H; simpl in H; discriminate].
  unfold bind at 1, call at 1 in H.
  destruct (git_createRef api _ _ _ _ _) as [[[]|e] w3] in H;
    [|unfold bind, error, emit, throw in H; simpl in H; discriminate].
  unfold bind at 1 in H.
  match type of H with
  | context [commit_files W api regex config o rp ?br matches ?s3] =>
      destruct (commit_files W api regex config o rp br matches s3) as [[[]|e] s4] eqn:Ec;
      [apply commit_files_ok in Ec as [t4 [E4 C4]]
      |unfold bind, error, emit, throw in H; simpl in H; discriminate]
  end.
  unfold bind at 1, fill_template at 1 in H.
  destruct (prTitle config) as [title|];
    [|unfold bind, error, emit, throw in H; simpl in H; discriminate].
  unfold bind at 1, fill_template at 1 in H.
  destruct (prBody config) as [body|];
    [|unfold bind, error, emit, throw in H; simpl in H; discriminate].
  cbv beta iota delta [ret] in H; unfold bind at 1, call at 1 in H.
  destruct (pulls_create api _ _ _ _ _ _ _) as [[pr|e] w5] in H;
    [|unfold bind, error, emit, throw in H; simpl in H; discriminate].
  unfold bind at 1 in H.
  match type of H with
  | context [add_labels_step W api config o rp R pr ?s5] =>
      destruct (add_labels_no_commit W api config o rp R pr s5) as [t6 [E6 F6]];
      destruct (add_labels_step W api config o rp R pr s5) as [[[]|e] s6] in H, E6;
      [|unfold bind, error, emit, throw in H; simpl in H; discriminate]
  end.
  unfold ret in H; inversion H; subst; clear H; simpl in *.
  split; [reflexivity|]; split; [reflexivity|].
  rewrite E6, E4, E1.
  eexists; split; [rewrite <- !app_assoc; reflexivity|].
  rewrite !commit_targets_app, C4, (commit_targets_none t1 F1), (commit_targets_none t6 F6).
  simpl; rewrite app_nil_r; split; [reflexivity|].
  split.
  - exists base; apply in_or_app; right; right; left; reflexivity.
  - do 3 eexists; apply in_or_app; right; right; right; apply in_or_app; right; left;
      reflexivity.
Qed.

Lemma returns_bind {W A B} (P : B -> Prop) (m : M W A) (k : A -> M W B) :
  (forall a, returns P (k a)) -> returns P (bind m k).
Proof.
  intros Hk s; unfold bind; destruct (m s) as [[a|e] s1]; simpl; [apply Hk|exact I].
Qed.

Lemma returns_try {W A} (P : A -> Prop) (m : M W A) h :
  returns P m -> (forall e, returns P (h e)) -> returns P (try_catch m h).
Proof.
  intros Hm Hh s; unfold try_catch; specialize (Hm s).
  destruct (m s) as [[a|e] s1]; simpl in *; [exact Hm|apply Hh].
Qed.

Lemma returns_throw {W A} (P : A -> Prop) e : returns (W := W) P (throw e).
Proof. intros s; exact I. Qed.

Lemma returns_ret {W A} (P : A -> Prop) a : P a -> returns (W := W) P (ret a).
Proof. intros H s; exact H. Qed.

Lemma str_app_assoc (a b c : string) : (a ++ b) ++ c = a ++ (b ++ c).
Proof. induction a as [|x a IH]; simpl; [reflexivity|rewrite IH; reflexivity]. Qed.

Lemma str_length_app (a b : string) : String.length (a ++ b) = (String.length a + String.length b)%nat.
Proof. induction a as [|x a IH]; simpl; [reflexivity|rewrite IH; reflexivity]. Qed.

Lemma substring_prefix (a r : string) : String.substring 0 (String.length a) (a ++ r) = a.
Proof. induction a as [|x a IH]; simpl; [destruct r; reflexivity|rewrite IH; reflexivity]. Qed.

Lemma strip_colon_dash_app (a b : string) :
  strip_colon_dash (a ++ b) = strip_colon_dash a ++ strip_colon_dash b.
Proof.
  induction a as [|x a IH]; simpl; [reflexivity|].
  destruct (_ || _); simpl; rewrite IH; reflexivity.
Qed.

Lemma strip_digits x : digits x = true -> strip_colon_dash x = x.
Proof.
  induction x as [|c x IH]; simpl; [reflexivity|].
  unfold digits; simpl; intros H; apply andb_true_iff in H as [Hc Hx].
  rewrite (IH Hx).
  destruct (Ascii.eqb c ":"%char) eqn:E1;
    [apply Ascii.eqb_eq in E1; subst; discriminate|].
  destruct (Ascii.eqb c "-"%char) eqn:E2;
    [apply Ascii.eqb_eq in E2; subst; discriminate|].
  reflexivity.
Qed.

Lemma returns_use {W A} (P : A -> Prop) (m : M W A) s a s' :
  returns P m -> m s = (Ok a, s') -> P a.
Proof. intros Hm H; specialize (Hm s); rewrite H in Hm; exact Hm. Qed.

Lemma createPullRequest_branch (W : Type) (api : GitHubApi W) (regex : RegexEngine)
  (config : SearchReplaceConfig) R matches s r s' :
  createPullRequest W api regex config R matches s = (Ok r, s') ->
  branchName r = show_opt (branchPrefix config) ++ "-"
                 ++ strip_colon_dash (slice0 19 (date_now_iso api (st_world s))).
Proof.
  intros H; unfold createPullRequest, bind at 1, now_iso at 1 in H; cbv beta iota zeta in H.
  revert H; generalize (date_now_iso api (st_world s)) as iso; intros iso H.
  refine (returns_use (fun r0 : PRCreationResult => branchName r0 =
     show_opt (branchPrefix config) ++ "-" ++ strip_colon_dash (slice0 19 iso)) _ s r s' _ H).
  destruct (owner_repo R) as [o rp].
  apply returns_try; [|intros; apply returns_bind; intros; apply returns_throw].
  apply returns_bind; intros [ri|]; [|apply returns_throw].
  repeat (apply returns_bind; intros).
  apply returns_ret; reflexivity.
Qed.

(** X11: the branch name is [<branchPrefix>-YYYYMMDDTHHMMSS], taken from
    the clock when [createPullRequest] starts: the first 19 characters of
    the ISO time stamp without [-] and [:], so to the second; an unset
    [branchPrefix] gives the literal prefix "undefined". *)
Theorem branch_name_second_resolution (W : Type) (api : GitHubApi W) (regex : RegexEngine)
  (config : SearchReplaceConfig) R matches s r s' y mo d h mi sec rest :
  createPullRequest W api regex config R matches s = (Ok r, s') ->
  date_now_iso api (st_world s)
    = y ++ "-" ++ mo ++ "-" ++ d ++ "T" ++ h ++ ":" ++ mi ++ ":" ++ sec ++ rest ->
  String.length y = 4%nat -> String.length mo = 2%nat -> String.length d = 2%nat ->
  String.length h = 2%nat -> String.length mi = 2%nat -> String.length sec = 2%nat ->
  digits y = true -> digits mo = true -> digits d = true ->
  digits h = true -> digits mi = true -> digits sec = true ->
  branchName r = show_opt (branchPrefix config) ++ "-"
                 ++ y ++ mo ++ d ++ "T" ++ h ++ mi ++ sec.
Proof.
  intros H Hiso Ly Lmo Ld Lh Lmi Ls Dy Dmo Dd Dh Dmi Ds.
  rewrite (createPullRequest_branch _ _ _ _ _ _ _ _ _ H), Hiso.
  assert (E : y ++ "-" ++ mo ++ "-" ++ d ++ "T" ++ h ++ ":" ++ mi ++ ":" ++ sec ++ rest
              = (y ++ "-" ++ mo ++ "-" ++ d ++ "T" ++ h ++ ":" ++ mi ++ ":" ++ sec) ++ rest).
  { rewrite !str_app_assoc; reflexivity. }
  assert (L : String.length (y ++ "-" ++ mo ++ "-" ++ d ++ "T" ++ h ++ ":" ++ mi ++ ":" ++ sec)
              = 19%nat).
  { rewrite !str_length_app; simpl; lia. }
  unfold slice0; rewrite E, <- L, substring_prefix.
  rewrite !strip_colon_dash_app, (strip_digits y Dy), (strip_digits mo Dmo),
    (strip_digits d Dd), (strip_digits h Dh), (strip_digits mi Dmi), (strip_digits sec Ds).
  reflexivity.
Qed.

Lemma returns_bind_dead {W A B} (Q : B -> Prop) (m : M W A) (k : A -> M W B) :
  returns (fun _ => False) m -> returns Q (bind m k).
Proof.
  intros Hm s; unfold bind; specialize (Hm s).
  destruct (m s) as [[a|e] s1]; simpl in *; [contradiction|exact I].
Qed.

Lemma ext_bind_dead {W} (P : Event -> Prop) {A B} (m : M W A) (k : A -> M W B) :
  returns (fun _ => False) m -> trace_ext W P m -> trace_ext W P (bind m k).
Proof.
  intros Hr Hm s; unfold bind; specialize (Hr s); destruct (Hm s) as [t [E F]].
  destruct (m s) as [[a|e] s1]; simpl in *; [contradiction|exists t; auto].
Qed.

Lemma commit_files_ext (W : Type) (api : GitHubApi W) (regex : RegexEngine)
  (config : SearchReplaceConfig) (P : Event -> Prop) o rp br matches :
  (forall p m c fs, P (ECreateOrUpdateFile o rp p m c fs br)) ->
  trace_ext W P (commit_files W api regex config o rp br matches).
Proof.
  intros HP; induction matches as [|m rest IH]; simpl; frame_steps; auto.
Qed.

(** X12: with [prTitle] undefined, [createPullRequest] always throws
    (the non-null assertion [prTitle!] does not guard the [replace] call)
    and never calls [pulls.create]; the branch and the commits made before
    the failure are not undone. *)
Theorem missing_prTitle_never_opens_pr (W : Type) (api : GitHubApi W) (regex : RegexEngine)
  (config : SearchReplaceConfig) R matches s :
  prTitle config = None ->
  (exists e, fst (createPullRequest W api regex config R matches s) = Throw e)
  /\ exists t, st_trace (snd (createPullRequest W api regex config R matches s))
                 = app (st_trace s) t
               /\ Forall (fun ev => is_pulls_create ev = false) t.
Proof.
  intros Hn; split.
  - assert (Hr : returns (fun _ => False) (createPullRequest W api regex config R matches)).
    { unfold createPullRequest, fill_template; rewrite Hn.
      apply returns_bind; intros iso; cbv zeta.
      destruct (owner_repo R) as [o rp].
      apply returns_try; [|intros; apply returns_bind; intros; apply returns_throw].
      apply returns_bind; intros [ri|]; [|apply returns_throw].
      do 3 (apply returns_bind; intros).
      apply returns_bind_dead, returns_throw. }
    specialize (Hr s); destruct (createPullRequest W api regex config R matches s)
      as [[a|e] s1]; simpl in *; [contradiction|eauto].
  - assert (Hx : trace_ext W (fun ev => is_pulls_create ev = false)
                   (createPullRequest W api regex config R matches)).
    { unfold createPullRequest, fill_template; rewrite Hn.
      apply ext_bind; [apply ext_now|intros iso; cbv zeta].
      destruct (owner_repo R) as [o rp].
      apply ext_try; [|frame_steps; reflexivity].
      apply ext_bind; [unfold getRepositoryInfo; frame_steps; reflexivity|].
      intros [ri|]; [|apply ext_throw].
      apply ext_bind; [apply ext_call; reflexivity|intros].
      apply ext_bind; [apply ext_call; reflexivity|intros].
      apply ext_bind; [apply commit_files_ext; reflexivity|intros].
      apply ext_bind_dead; [apply returns_throw|apply ext_throw]. }
    apply Hx.
Qed.

(** X13: a failing [issues.addLabels] call does not fail the step: it
    logs the warning "Could not add labels to PR <n> in <repo>: <message>"
    and returns normally. *)
Theorem labels_failure_only_warns (W : Type) (api : GitHubApi W) (config : SearchReplaceConfig)
  o rp R pr labels e w' s :
  prLabels config = Some labels -> labels <> [] ->
  issues_addLabels api o rp (number pr) labels (st_world s) = (Throw e, w') ->
  add_labels_step W api config o rp R pr s
  = (Ok tt, mkSt w' (app (st_trace s)
                      [EAddLabels o rp (number pr) labels;
                       ELog LWarn ("Could not add labels to PR " ++ z_to_string (number pr)
                                   ++ " in " ++ R ++ ": " ++ err_message e)])
                 (st_summary s)).
Proof.
  intros Hl Hne Hc; unfold add_labels_step; rewrite Hl.
  destruct labels as [|l ls]; [congruence|]; simpl.
  unfold try_catch, call; rewrite Hc; unfold warn, emit; simpl.
  rewrite <- app_assoc; reflexivity.
Qed.

Section Bookkeeping.
Variable W : Type.
Variable api : GitHubApi W.
Variable regex : RegexEngine.
Variable config : SearchReplaceConfig.

(** How one repository's iteration changes the summary. *)
Definition repo_step_rel (n : Z) (x y : ExecutionSummary) : Prop :=
  repositoriesWithMatches y = repositoriesWithMatches x /\
  totalFilesChanged y = totalFilesChanged x + n /\
  if opt_truthy (dryRun config) then
    successfulPRs y = successfulPRs x /\ failedPRs y = failedPRs x /\
    prs y = prs x /\ errors y = errors x
  else
    successfulPRs y + failedPRs y = successfulPRs x + failedPRs x + 1 /\
    Z.of_nat (List.length (prs y)) - successfulPRs y
      = Z.of_nat (List.length (prs x)) - successfulPRs x /\
    Z.of_nat (List.length (errors y)) - failedPRs y
      = Z.of_nat (List.length (errors x)) - failedPRs x.

Lemma process_repository_summary repo matches s :
  repo_step_rel (Z.of_nat (List.length matches)) (st_summary s)
    (st_summary (snd (process_repository W api regex config repo matches s))).
Proof.
  unfold repo_step_rel, process_repository, try_catch, bind, modify_summary.
  destruct (opt_truthy (dryRun config)); simpl.
  - repeat split; reflexivity.
  - set (s1 := mkSt _ _ _).
    pose proof (createPullRequest_frame W api regex config repo matches s1) as Hf.
    destruct (createPullRequest W api regex config repo matches s1) as [[r|e] s2];
      simpl in Hf |- *; rewrite Hf; simpl; rewrite ?length_app; simpl;
      repeat split; lia.
Qed.

Lemma process_repositories_ok results s :
  fst (process_repositories W api regex config results s) = Ok tt.
Proof.
  revert s; induction results as [|[repo matches] rest IH]; intros s; [reflexivity|].
  simpl; unfold bind.
  pose proof (process_repository_ok W api regex config repo matches s) as H.
  destruct (process_repository W api regex config repo matches s) as [r s1];
    simpl in H; subst; apply IH.
Qed.

Lemma process_repositories_summary results s :
  let x := st_summary s in
  let y := st_summary (snd (process_repositories W api regex config results s)) in
  repositoriesWithMatches y = repositoriesWithMatches x /\
  totalFilesChanged y = totalFilesChanged x + total_files results /\
  if opt_truthy (dryRun config) then
    successfulPRs y = successfulPRs x /\ failedPRs y = failedPRs x /\
    prs y = prs x /\ errors y = errors x
  else
    successfulPRs y + failedPRs y
      = successfulPRs x + failedPRs x + Z.of_nat (List.length results) /\
    Z.of_nat (List.length (prs y)) - successfulPRs y
      = Z.of_nat (List.length (prs x)) - successfulPRs x /\
    Z.of_nat (List.length (errors y)) - failedPRs y
      = Z.of_nat (List.length (errors x)) - failedPRs x.
Proof.
  revert s; induction results as [|[repo matches] rest IH]; intros s; cbv zeta.
  - simpl; unfold total_files; simpl.
    destruct (opt_truthy (dryRun config)); repeat split; lia.
  - simpl; unfold bind.
    pose proof (process_repository_ok W api regex config repo matches s) as Hok.
    pose proof (process_repository_summary repo matches s) as Hs.
    destruct (process_repository W api regex config repo matches s) as [r s1];
      simpl in Hok, Hs; subst.
    specialize (IH s1); cbv zeta in IH.
    unfold repo_step_rel in Hs; unfold total_files in *; simpl.
    destruct (opt_truthy (dryRun config)).
    + destruct Hs as (H1 & H2 & H3 & H4 & H5 & H6); destruct IH as (I1 & I2 & I3 & I4 & I5 & I6).
      repeat split; congruence || lia.
    + destruct Hs as (H1 & H2 & H3 & H4 & H5); destruct IH as (I1 & I2 & I3 & I4 & I5).
      repeat split; lia.
Qed.

End Bookkeeping.

(** X14: for a valid configuration whose search returns the match map [m],
    the run returns a summary with [repositoriesWithMatches = |m|] and
    [totalFilesChanged] the number of matched files; without dry run every
    repository counts once in [successfulPRs + failedPRs], [prs] has
    [successfulPRs] entries and [errors] has [failedPRs] entries; in a dry
    run all four are zero or empty. *)
Theorem summary_counts_follow_search (W : Type) (api : GitHubApi W) (regex : RegexEngine)
  (config : SearchReplaceConfig) w m :
  validateConfig config = [] ->
  fst (searchAcrossOrganizations W api regex config (mkSt w [] summary0)) = Ok m ->
  exists sum, fst (run (executeSearchReplace W api regex config) w) = Ok sum /\
    repositoriesWithMatches sum = Z.of_nat (List.length m) /\
    totalFilesChanged sum = total_files m /\
    if opt_truthy (dryRun config) then
      successfulPRs sum = 0 /\ failedPRs sum = 0 /\ prs sum = [] /\ errors sum = []
    else
      successfulPRs sum + failedPRs sum = Z.of_nat (List.length m) /\
      Z.of_nat (List.length (prs sum)) = successfulPRs sum /\
      Z.of_nat (List.length (errors sum)) = failedPRs sum.
Proof.
  intros Hv Hs.
  rewrite (executeSearchReplace_valid W api regex config w Hv).
  unfold try_catch, search_and_process, bind at 1.
  pose proof (search_frame W api regex config (mkSt w [] summary0)) as Hf.
  destruct (searchAcrossOrganizations W api regex config (mkSt w [] summary0)) as [r s1];
    simpl in Hs, Hf; subst r.
  unfold bind, modify_summary.
  set (s2 := mkSt _ _ _).
  pose proof (process_repositories_ok W api regex config m s2) as Hok.
  pose proof (process_repositories_summary W api regex config m s2) as Hsum.
  destruct (process_repositories W api regex config m s2) as [r s3];
    simpl in Hok, Hsum; subst r.
  eexists; split; [reflexivity|].
  subst s2; simpl in Hsum; rewrite Hf in Hsum; simpl in Hsum.
  destruct (opt_truthy (dryRun config)).
  - destruct Hsum as (H1 & H2 & H3 & H4 & H5 & H6).
    rewrite H1, H2, H3, H4, H5, H6; repeat split; lia.
  - destruct Hsum as (H1 & H2 & H3 & H4 & H5); repeat split; lia.
Qed.

Lemma split_on_nonempty sep s : split_on sep s <> [].
Proof.
  destruct s as [|c rest]; simpl; [discriminate|].
  destruct (Ascii.eqb c sep); [discriminate|destruct (split_on sep rest); discriminate].
Qed.

Lemma or_default_truthy v fb : str_truthy fb = true -> str_truthy (or_default v fb) = true.
Proof.
  intros H; destruct v as [x|]; simpl; [|exact H].
  destruct (str_truthy x) eqn:E; [exact E|exact H].
Qed.

(** X15: the configuration [main] builds can only fail validation with
    "GitHub token is required" or "Search and replacement strings cannot
    be the same": its organization list is never empty (splitting a
    non-empty [GITHUB_ORGANIZATIONS] gives at least one entry) and its
    search and replacement strings are never empty. *)
Theorem main_config_validation_errors (env : Env) :
  Forall (fun e => e = "GitHub token is required"
                   \/ e = "Search and replacement strings cannot be the same")
    (validateConfig (main_config env)).
Proof.
  unfold validateConfig; cbn [githubToken organizations searchString replacementString main_config].
  rewrite (or_default_truthy (env "SEARCH_STRING") "project-metadata.xing.io") by reflexivity.
  rewrite (or_default_truthy (env "REPLACEMENT_STRING") "project-metadata.nwse.io") by reflexivity.
  replace (Nat.eqb (List.length (match env "GITHUB_ORGANIZATIONS" with
                                 | Some v => if str_truthy v then map trim (split_on ","%char v)
                                             else ["new-work"; "xing-com"]
                                 | None => ["new-work"; "xing-com"] end)) 0) with false.
  2:{ destruct (env "GITHUB_ORGANIZATIONS") as [v|]; [|reflexivity].
      destruct (str_truthy v); [|reflexivity].
      pose proof (split_on_nonempty ","%char v) as Hne.
      destruct (split_on ","%char v); [congruence|reflexivity]. }
  simpl.
  destruct (negb (str_truthy _)); destruct (String.eqb _ _); simpl; auto.
Qed.

Lemma main_config_token (env : Env) :
  githubToken (main_config env) = or_default (env "GITHUB_TOKEN") "".
Proof. reflexivity. Qed.

(** X16: with [GITHUB_TOKEN] unset or empty, [main] logs the
    missing-token error and exits with code 1 before any other effect. *)
Theorem main_without_token_exits_1 (W : Type) (api : GitHubApi W) (regex : RegexEngine)
  (env : Env) (w : W) :
  env "GITHUB_TOKEN" = None \/ env "GITHUB_TOKEN" = Some "" ->
  run (main W api regex env) w = (Ok 1, mkSt w [ELog LError missing_token_message] summary0).
Proof.
  intros Ht; unfold run, main; cbv zeta; rewrite main_config_token.
  replace (str_truthy (or_default (env "GITHUB_TOKEN") "")) with false
    by (destruct Ht as [E|E]; rewrite E; reflexivity).
  reflexivity.
Qed.

Lemma log_lines_trace {W} (ls : list (PLevel * string)) (s : St W) :
  log_lines ls s = (Ok tt, mkSt (st_world s) (app (st_trace s) (map (ELog LWarn) (warn_lines ls)))
                              (st_summary s)).
Proof.
  revert s; induction ls as [|[[] msg] rest IH]; intros s; simpl.
  - destruct s; simpl; rewrite app_nil_r; reflexivity.
  - apply IH.
  - unfold bind, warn, emit; simpl; rewrite IH; simpl; rewrite <- app_assoc; reflexivity.
Qed.

(** X17: with a token, [main] exits with 0 exactly when the returned
    summary has no error and no failed PR, and 1 otherwise, after the
    run's effects and the summary's warning lines; if [executeSearchReplace]
    throws, [main] logs "Fatal error: <message>" and exits with 1. *)
Theorem main_exit_code (W : Type) (api : GitHubApi W) (regex : RegexEngine)
  (env : Env) (w : W) t :
  env "GITHUB_TOKEN" = Some t -> t <> "" ->
  match run (executeSearchReplace W api regex (main_config env)) w with
  | (Ok sum, s1) =>
      exists code,
        run (main W api regex env) w
        = (Ok code, mkSt (st_world s1)
                      (app (st_trace s1)
                         (map (ELog LWarn) (warn_lines (printSummary sum (main_config env)))))
                      (st_summary s1))
        /\ (code = 0 /\ errors sum = [] /\ failedPRs sum <= 0
            \/ code = 1 /\ (errors sum <> [] \/ 0 < failedPRs sum))
  | (Throw e, s1) =>
      run (main W api regex env) w
      = (Ok 1, mkSt (st_world s1)
                 (app (st_trace s1) [ELog LError ("Fatal error: " ++ err_message e)])
                 (st_summary s1))
  end.
Proof.
  intros Ht Hne; unfold run, main; cbv zeta; rewrite main_config_token, Ht.
  replace (str_truthy (or_default (Some t) "")) with true.
  2:{ unfold or_default, str_truthy; destruct (String.eqb t "") eqn:E;
      [apply String.eqb_eq in E; congruence|simpl; rewrite E; reflexivity]. }
  simpl negb; cbv iota.
  unfold try_catch, bind.
  destruct (executeSearchReplace W api regex (main_config env) (mkSt w [] summary0))
    as [[sum|e] s1].
  - rewrite log_lines_trace; unfold ret.
    eexists; split; [reflexivity|].
    destruct (errors sum) as [|e0 es]; simpl.
    + destruct (0 <? failedPRs sum) eqn:E; [right; split; [reflexivity|right; lia]|].
      left; repeat split; lia.
    + right; split; [reflexivity|left; discriminate].
  - unfold error, emit, ret; reflexivity.
Qed.

(** X18: with a token and [SEARCH_STRING] equal to a non-empty
    [REPLACEMENT_STRING], [main] makes no API call, logs
    "Fatal error: Configuration errors: Search and replacement strings
    cannot be the same" and exits with 1. *)
Theorem main_same_strings_exits_1 (W : Type) (api : GitHubApi W) (regex : RegexEngine)
  (env : Env) (w : W) t v :
  env "GITHUB_TOKEN" = Some t -> t <> "" ->
  env "SEARCH_STRING" = Some v -> env "REPLACEMENT_STRING" = Some v -> v <> "" ->
  run (main W api regex env) w
  = (Ok 1, mkSt w [ELog LError
                     ("Fatal error: Configuration errors: "
                      ++ "Search and replacement strings cannot be the same")] summary0).
Proof.
  intros Ht Hne Hs Hr Hv.
  pose proof (main_exit_code W api regex env w t Ht Hne) as H.
  assert (Hval : validateConfig (main_config env)
                 = ["Search and replacement strings cannot be the same"]).
  { unfold validateConfig; cbn [githubToken organizations searchString replacementString main_config].
    rewrite Ht, Hs, Hr.
    assert (Tt : str_truthy t = true)
      by (unfold str_truthy; destruct (String.eqb t "") eqn:E;
          [apply String.eqb_eq in E; congruence|reflexivity]).
    assert (Tv : str_truthy v = true)
      by (unfold str_truthy; destruct (String.eqb v "") eqn:E;
          [apply String.eqb_eq in E; congruence|reflexivity]).
    unfold or_default; rewrite Tt, Tv, String.eqb_refl.
    replace (Nat.eqb (List.length (match env "GITHUB_ORGANIZATIONS" with
                                   | Some v => if str_truthy v then map trim (split_on ","%char v)
                                               else ["new-work"; "xing-com"]
                                   | None => ["new-work"; "xing-com"] end)) 0) with false.
    2:{ destruct (env "GITHUB_ORGANIZATIONS") as [o|]; [|reflexivity].
        destruct (str_truthy o); [|reflexivity].
        pose proof (split_on_nonempty ","%char o) as Hn.
        destruct (split_on ","%char o); [congruence|reflexivity]. }
    simpl; rewrite Tt, Tv; reflexivity. }
  rewrite (invalid_config_no_effect W api regex (main_config env) w) in H
    by (rewrite Hval; discriminate).
  rewrite H, Hval; reflexivity.
Qed.

(** X19: only [DRY_RUN] equal to "true" turns on the dry run: any other
    value ("1", "TRUE", "yes", ...) makes [main] behave exactly as with
    [DRY_RUN] unset. *)
Theorem dry_run_needs_exact_true (W : Type) (api : GitHubApi W) (regex : RegexEngine)
  (env : Env) :
  env "DRY_RUN" <> Some "true" ->
  forall s, main W api regex env s = main W api regex (env_set env "DRY_RUN" None) s.
Proof.
  intros Hd s.
  assert (Hc : main_config env = main_config (env_set env "DRY_RUN" None)).
  { unfold main_config, env_set; cbn -[or_default trim split_on].
    destruct (env "DRY_RUN") as [v|]; [|reflexivity].
    destruct (String.eqb v "true") eqn:E; [|reflexivity].
    apply String.eqb_eq in E; subst; congruence. }
  unfold main; rewrite Hc; reflexivity.
Qed.

Lemma warn_lines_app l1 l2 : warn_lines (app l1 l2) = app (warn_lines l1) (warn_lines l2).
Proof. unfold warn_lines; apply flat_map_app. Qed.

Lemma warn_lines_numbered i errs :
  warn_lines (numbered_errors i errs)
  = map (fun p => "  " ++ z_to_string (Z.of_nat (fst p)) ++ ". " ++ snd p)
        (combine (seq i (List.length errs)) errs).
Proof.
  revert i; induction errs as [|e rest IH]; intros i; [reflexivity|].
  simpl; f_equal; apply IH.
Qed.

Lemma warn_lines_prs prs : warn_lines (flat_map pr_lines prs) = [].
Proof. induction prs as [|p rest IH]; [reflexivity|exact IH]. Qed.

(** X20: the only warning lines [printSummary] logs are, when [errors] is
    non-empty, the header "Errors encountered: <count>" and then one line
    "  <i>. <error>" per error, numbered from 1 in order; the PR list and
    counters are info lines. *)
Theorem printSummary_warnings (summary : ExecutionSummary) (config : SearchReplaceConfig) :
  warn_lines (printSummary summary config)
  = match errors summary with
    | [] => []
    | errs => (nl ++ "Errors encountered: " ++ z_to_string (Z.of_nat (List.length errs)))
              :: map (fun p => "  " ++ z_to_string (Z.of_nat (fst p)) ++ ". " ++ snd p)
                     (combine (seq 1 (List.length errs)) errs)
    end.
Proof.
  unfold printSummary; rewrite !warn_lines_app.
  replace (warn_lines (if opt_truthy (dryRun config) then _ else _)) with (@nil string)
    by (destruct (opt_truthy (dryRun config)); reflexivity).
  replace (warn_lines (if Nat.ltb 0 (List.length (prs summary)) then _ else _))
    with (@nil string)
    by (destruct (Nat.ltb 0 _); [simpl; symmetry; apply warn_lines_prs|reflexivity]).
  destruct (errors summary) as [|e rest]; simpl; [reflexivity|].
  rewrite warn_lines_numbered, app_nil_r; reflexivity.
Qed.

(** X21: unless [includeArchived] is set, a search hit in an archived
    repository is dropped with no API call and no warning or error line. *)
Theorem archived_items_dropped_without_calls (W : Type) (api : GitHubApi W)
  (regex : RegexEngine) (config : SearchReplaceConfig) item acc s :
  opt_truthy (includeArchived config) = false ->
  archived (item_repository item) = Some true ->
  process_item W api regex config item acc s = (Ok acc, s).
Proof.
  intros Hi Ha; unfold process_item, shouldProcessRepository; rewrite Hi, Ha; reflexivity.
Qed.

(** X22: a hit whose content is a directory listing or an object whose
    [type] is not "file" (a symlink or submodule) is dropped after the
    content call, with no warning. *)
Theorem non_file_content_skipped_silently (W : Type) (api : GitHubApi W)
  (regex : RegexEngine) (config : SearchReplaceConfig) item acc s c w' :
  shouldProcessRepository config (item_repository item) = true ->
  shouldExcludePath W regex config (item_path item) s = (Ok false, s) ->
  repos_getContent api (owner_login (item_repository item)) (sr_name (item_repository item))
    (item_path item) (or_default (default_branch (item_repository item)) "main") (st_world s)
  = (Ok c, w') ->
  non_file c ->
  process_item W api regex config item acc s
  = (Ok acc,
     mkSt w'
       (app (st_trace s)
          [EGetContent (owner_login (item_repository item)) (sr_name (item_repository item))
             (item_path item) (or_default (default_branch (item_repository item)) "main")
             (Ok c)])
       (st_summary s)).
Proof.
  intros Hp Hx Hg Hn; unfold process_item; rewrite Hp; cbn [negb].
  unfold bind at 1; rewrite Hx.
  unfold try_catch, bind at 1, getFileContent, try_catch, bind, getContent_call.
  rewrite Hg; simpl.
  destruct c as [es|type body h]; [reflexivity|].
  destruct (String.eqb type "file") eqn:E; [apply String.eqb_eq in E; contradiction|].
  reflexivity.
Qed.

Lemma split_on_no_sep sep x : has_char sep x = false -> split_on sep x = [x].
Proof.
  induction x as [|c x IH]; intros H; [reflexivity|].
  unfold has_char in H; simpl in H; apply orb_false_iff in H as [H1 H2].
  simpl; rewrite Ascii.eqb_sym, H1, IH by exact H2; reflexivity.
Qed.

Lemma split_on_app_sep sep x rest :
  has_char sep x = false -> split_on sep (x ++ String sep rest) = x :: split_on sep rest.
Proof.
  induction x as [|c x IH]; intros H; simpl; [rewrite Ascii.eqb_refl; reflexivity|].
  unfold has_char in H; simpl in H; apply orb_false_iff in H as [H1 H2].
  rewrite Ascii.eqb_sym, H1, IH by exact H2; reflexivity.
Qed.

Lemma split_on_join sep xs :
  xs <> [] -> Forall (fun x => has_char sep x = false) xs ->
  split_on sep (join (String sep EmptyString) xs) = xs.
Proof.
  induction xs as [|x rest IH]; intros Hne Hf; [congruence|].
  inversion Hf as [|? ? Hx Hr]; subst.
  destruct rest as [|y rest'].
  - simpl; apply split_on_no_sep; exact Hx.
  - change (join (String sep "") (x :: y :: rest'))
      with (x ++ String sep (join (String sep "") (y :: rest'))).
    rewrite split_on_app_sep by exact Hx; rewrite IH; auto; discriminate.
Qed.

(** X23: [GITHUB_ORGANIZATIONS] set to a comma-joined list of organization
    names (without commas or surrounding white space) gives exactly that
    list as [organizations]. *)
Theorem organizations_env_round_trip (env : Env) (orgs : list string) :
  env "GITHUB_ORGANIZATIONS" = Some (join "," orgs) ->
  join "," orgs <> "" ->
  Forall (fun o => has_char ","%char o = false /\ trim o = o) orgs ->
  organizations (main_config env) = orgs.
Proof.
  intros He Hne Hf; cbn [organizations main_config]; rewrite He.
  assert (Ht : str_truthy (join "," orgs) = true).
  { unfold str_truthy; destruct (String.eqb (join "," orgs) "") eqn:E;
      [apply String.eqb_eq in E; contradiction|reflexivity]. }
  rewrite Ht.
  assert (Hn : orgs <> []) by (intros ->; apply Hne; reflexivity).
  rewrite (split_on_join ","%char orgs Hn)
    by (eapply Forall_impl; [|exact Hf]; intros o [H _]; exact H).
  clear He Hne Ht Hn; induction Hf as [|o rest [_ Ho] _ IH]; simpl; [reflexivity|].
  rewrite Ho, IH; reflexivity.
Qed.

(** ** Instances of the further properties *)

Lemma shouldExcludePath_star_free_witness :
  excludePatterns host_config = Some ["node_modules/"]
  /\ shouldExcludePath unit fragment_regex host_config "web/node_modules/x.js" st0
     = (Ok (existsb (includes "web/node_modules/x.js") ["node_modules/"]), st0).
Proof.
  split; [reflexivity|].
  apply shouldExcludePath_star_free; [reflexivity|repeat constructor].
Defined.

Lemma default_plain_patterns_witness :
  excludePatterns (main_config token_env) = Some default_excludePatterns
  /\ shouldExcludePath unit fragment_regex (main_config token_env) "app/rebuild/x.js" st0
     = (Ok true, st0).
Proof.
  split; [reflexivity|].
  apply (default_plain_patterns_exclude unit fragment_regex (main_config token_env) "build/");
    [reflexivity|simpl; tauto|reflexivity].
Defined.

Lemma default_globs_witness :
  excludePatterns (main_config token_env) = Some default_excludePatterns
  /\ shouldExcludePath unit glob_regex (main_config token_env) "src/catalog.ts" st0
     = (Ok true, st0).
Proof.
  split; [reflexivity|].
  apply (default_globs_exclude_log_lock_substrings unit (main_config token_env)
           "src/cat" "a"%char ".ts"); [reflexivity|reflexivity|left; reflexivity].
Defined.

Lemma visibility_private_witness :
  repositoryTypes (types_config ["public"; "internal"]) = Some ["public"; "internal"]
  /\ sr_visibility internal_repo = Some "internal"
  /\ shouldProcessRepository (types_config ["public"; "internal"]) internal_repo = false.
Proof.
  split; [reflexivity|split; [reflexivity|]].
  apply (visibility_field_counts_as_private _ _ ["public"; "internal"] "internal");
    [reflexivity|discriminate|simpl; intros [H|[H|[]]]; discriminate|reflexivity|discriminate].
Defined.

Lemma internal_only_witness :
  repositoryTypes (types_config ["internal"]) = Some ["internal"]
  /\ shouldProcessRepository (types_config ["internal"]) (demo_repo "site") = false.
Proof.
  split; [reflexivity|].
  apply (repositoryTypes_without_public_private_skip_all _ _ ["internal"]);
    [reflexivity|discriminate|simpl; intros [H|[]]; discriminate
    |simpl; intros [H|[]]; discriminate].
Defined.

Lemma content_fetch_failure_witness :
  repos_getContent content_failure_api "acme" "site" "config.json" "main" tt
  = (Throw not_found, tt)
  /\ process_item unit content_failure_api fragment_regex host_config
       (demo_item "site" "config.json") [] st0
     = (Ok [],
        mkSt tt
          [EGetContent "acme" "site" "config.json" "main" (Throw not_found);
           ELog LWarn ("Could not fetch content for acme/site/config.json: "
                       ++ "Failed to get file content: Not Found")] summary0).
Proof.
  split; [reflexivity|].
  apply (content_fetch_failure_becomes_warning unit content_failure_api fragment_regex
           host_config (demo_item "site" "config.json") [] st0 not_found tt);
    reflexivity.
Defined.

Lemma invalid_pattern_witness :
  includes "old.host oldXhost" "old.host" = true
  /\ process_item unit host_api rejecting_regex host_config
       (demo_item "site" "config.json") [] st0
     = (Ok [],
        mkSt tt
          [EGetContent "acme" "site" "config.json" "main"
             (Ok (CObj "file" "old.host oldXhost" "s1"));
           ELog LWarn ("Could not fetch content for acme/site/config.json: "
                       ++ "Invalid regular expression")] summary0).
Proof.
  split; [reflexivity|].
  apply (invalid_pattern_reported_as_fetch_failure unit host_api rejecting_regex host_config
           (demo_item "site" "config.json") [] st0 tt "old.host oldXhost" "s1"
           (mkError "SyntaxError" "Invalid regular expression"));
    reflexivity.
Defined.

Lemma search_match_map_witness :
  fst (searchAcrossOrganizations unit host_api fragment_regex host_config st0)
  = Ok [("acme/site", [host_match])]
  /\ match_map_wf [("acme/site", [host_match])].
Proof.
  assert (H : fst (searchAcrossOrganizations unit host_api fragment_regex host_config st0)
              = Ok [("acme/site", [host_match])]) by (vm_compute; reflexivity).
  split; [exact H|].
  exact (search_match_map_well_formed unit host_api fragment_regex host_config st0 _ H).
Defined.

Lemma repo_lookup_failure_witness :
  repos_get repo_failure_api "acme" "site" tt = (Throw not_found, tt)
  /\ createPullRequest unit repo_failure_api fragment_regex host_config "acme/site"
       [host_match] st0
     = (Throw (Error "Could not get repository information for acme/site"),
        mkSt tt
          [EReposGet "acme" "site";
           ELog LError "Failed to get repository info for acme/site: Not Found";
           ELog LError ("Failed to create PR for acme/site: "
                        ++ "Could not get repository information for acme/site")] summary0).
Proof.
  split; [reflexivity|].
  apply (repo_lookup_failure_stops_publish unit repo_failure_api fragment_regex host_config
           "acme/site" [host_match] st0 not_found tt).
  reflexivity.
Defined.

Lemma host_pr_run :
  exists s', createPullRequest unit host_api fragment_regex host_config "acme/site"
               [host_match] st0 = (Ok host_result, s').
Proof. eexists; vm_compute; reflexivity. Qed.

Lemma createPullRequest_commits_witness :
  (exists s', createPullRequest unit host_api fragment_regex host_config "acme/site"
                [host_match] st0 = (Ok host_result, s'))
  /\ pr_repository host_result = "acme/site"
  /\ filesChanged host_result = Z.of_nat (List.length [host_match]).
Proof.
  split; [exact host_pr_run|].
  destruct host_pr_run as [s' H].
  destruct (createPullRequest_commits_each_match unit host_api fragment_regex host_config
              "acme/site" [host_match] st0 host_result s' H) as [H1 [H2 _]].
  split; assumption.
Defined.

Lemma branch_name_witness :
  (exists s', createPullRequest unit host_api fragment_regex host_config "acme/site"
                [host_match] st0 = (Ok host_result, s'))
  /\ date_now_iso host_api tt = "2026-10-15T12:00:00.000Z"
  /\ branchName host_result = show_opt (branchPrefix host_config) ++ "-"
                              ++ "2026" ++ "10" ++ "15" ++ "T" ++ "12" ++ "00" ++ "00".
Proof.
  split; [exact host_pr_run|split; [reflexivity|]].
  destruct host_pr_run as [s' H].
  apply (branch_name_second_resolution unit host_api fragment_regex host_config "acme/site"
           [host_match] st0 host_result s' "2026" "10" "15" "12" "00" "00" ".000Z" H);
    reflexivity.
Defined.

Lemma missing_prTitle_witness :
  prTitle untitled_config = None
  /\ commit_targets (st_trace (snd (createPullRequest unit host_api fragment_regex
                                      untitled_config "acme/site" [host_match] st0)))
     = [("config.json", "s1", host_branch)]
  /\ exists e, fst (createPullRequest unit host_api fragment_regex untitled_config
                      "acme/site" [host_match] st0) = Throw e.
Proof.
  split; [reflexivity|split; [vm_compute; reflexivity|]].
  apply (proj1 (missing_prTitle_never_opens_pr unit host_api fragment_regex untitled_config
                  "acme/site" [host_match] st0 eq_refl)).
Defined.

Lemma labels_failure_witness :
  prLabels host_config = Some ["automated"]
  /\ add_labels_step unit labels_failure_api host_config "acme" "site" "acme/site"
       (mkPullData 1 "https://github.com/acme/site/pull/1") st0
     = (Ok tt,
        mkSt tt [EAddLabels "acme" "site" 1 ["automated"];
                 ELog LWarn "Could not add labels to PR 1 in acme/site: Label does not exist"]
          summary0).
Proof.
  split; [reflexivity|].
  apply (labels_failure_only_warns unit labels_failure_api host_config "acme" "site"
           "acme/site" (mkPullData 1 "https://github.com/acme/site/pull/1") ["automated"]
           label_error tt st0); [reflexivity|discriminate|reflexivity].
Defined.

Lemma summary_counts_witness :
  validateConfig host_config = []
  /\ exists sum, fst (run (executeSearchReplace unit host_api fragment_regex host_config) tt)
                 = Ok sum
                 /\ repositoriesWithMatches sum = 1 /\ totalFilesChanged sum = 1
                 /\ successfulPRs sum + failedPRs sum = 1.
Proof.
  split; [reflexivity|].
  assert (Hs : fst (searchAcrossOrganizations unit host_api fragment_regex host_config st0)
               = Ok [("acme/site", [host_match])]) by (vm_compute; reflexivity).
  destruct (summary_counts_follow_search unit host_api fragment_regex host_config tt _
              eq_refl Hs) as [sum [E [H1 [H2 H3]]]].
  exists sum; split; [exact E|].
  simpl in H3; destruct H3 as [H3 _].
  split; [exact H1|split; [exact H2|exact H3]].
Defined.

Lemma main_without_token_witness :
  env_of [] "GITHUB_TOKEN" = None
  /\ run (main unit host_api fragment_regex (env_of [])) tt
     = (Ok 1, mkSt tt [ELog LError missing_token_message] summary0).
Proof.
  split; [reflexivity|].
  apply main_without_token_exits_1; left; reflexivity.
Defined.

Lemma main_exit_code_witness :
  token_env "GITHUB_TOKEN" = Some "token"
  /\ fst (run (main unit host_api glob_regex token_env) tt) = Ok 0.
Proof.
  split; [reflexivity|].
  pose proof (main_exit_code unit host_api glob_regex token_env tt "token" eq_refl
                ltac:(discriminate)) as M.
  destruct (run (executeSearchReplace unit host_api glob_regex (main_config token_env)) tt)
    as [[sum|e] s1] eqn:E; vm_compute in E; [|discriminate].
  injection E as <- <-.
  destruct M as [code [Hm [[-> _]|[_ [Hne|Hlt]]]]].
  - rewrite Hm; reflexivity.
  - simpl in Hne; congruence.
  - simpl in Hlt; lia.
Defined.

Lemma main_same_strings_witness :
  same_strings_env "SEARCH_STRING" = same_strings_env "REPLACEMENT_STRING"
  /\ run (main unit host_api fragment_regex same_strings_env) tt
     = (Ok 1, mkSt tt [ELog LError ("Fatal error: Configuration errors: "
                                    ++ "Search and replacement strings cannot be the same")]
                summary0).
Proof.
  split; [reflexivity|].
  apply (main_same_strings_exits_1 unit host_api fragment_regex same_strings_env tt
           "token" "old.host"); (reflexivity || discriminate).
Defined.

Lemma dry_run_exact_true_witness :
  dry_run_1_env "DRY_RUN" = Some "1"
  /\ main unit host_api fragment_regex dry_run_1_env st0
     = main unit host_api fragment_regex (env_set dry_run_1_env "DRY_RUN" None) st0.
Proof.
  split; [reflexivity|].
  apply dry_run_needs_exact_true; discriminate.
Defined.

Lemma archived_items_witness :
  archived (item_repository archived_item) = Some true
  /\ process_item unit full_api fragment_regex host_config archived_item [] st0 = (Ok [], st0).
Proof.
  split; [reflexivity|].
  apply archived_items_dropped_without_calls; reflexivity.
Defined.

Lemma non_file_content_witness :
  non_file (CObj "submodule" "" "s9")
  /\ process_item unit submodule_api fragment_regex host_config
       (demo_item "site" "vendor/lib") [] st0
     = (Ok [], mkSt tt [EGetContent "acme" "site" "vendor/lib" "main"
                          (Ok (CObj "submodule" "" "s9"))] summary0).
Proof.
  split; [discriminate|].
  apply (non_file_content_skipped_silently unit submodule_api fragment_regex host_config
           (demo_item "site" "vendor/lib") [] st0 (CObj "submodule" "" "s9") tt);
    [reflexivity|reflexivity|reflexivity|discriminate].
Defined.

Lemma organizations_round_trip_witness :
  orgs_env "GITHUB_ORGANIZATIONS" = Some (join "," ["acme"; "globex"])
  /\ organizations (main_config orgs_env) = ["acme"; "globex"].
Proof.
  split; [reflexivity|].
  apply organizations_env_round_trip; [reflexivity|discriminate|repeat constructor].
Defined.
